(** * A shallow embedding of the DDP client session engine

    The Go source is [ddp_stats.go]: the [Client] struct, its caller-facing
    methods ([Send], [Close], [Reconnect], [Subscribe], [Go], [PingPong],
    [Ping], [CollectionByName]) and the dispatcher loop [inboxManager].

    Every method is embedded as a state transformer over the [Client]
    struct and a small runtime (timers started with [time.AfterFunc], the
    websocket world, and a trace of the calls the client makes on its
    collaborators).  A method run ends normally, with a Go panic, or with
    the process exit of [log.Fatal].

    The first half of the source, the i/o [Logger], the [StatsTracker] and
    the reader and writer wrappers, is embedded as pure functions. *)

From Stdlib Require Import ZArith.
From stdpp Require Import gmap strings list fin_maps pretty.

Local Open Scope Z_scope.
Set Warnings "-register-all".

(** ** Values carried by messages *)

(** A decoded JSON value as [encoding/json] stores it in an [interface{}];
    [JNull] is the nil interface.  The client never looks into a number,
    which is kept as an integer here. *)
Inductive JSON :=
| JNull
| JBool (b : bool)
| JNumber (n : Z)
| JString (s : string)
| JArray (xs : list JSON)
| JObject (kvs : list (string * JSON)).

(** An inbound message, [map[string]interface{}]. *)
Abbreviation Message := (gmap string JSON).

(** [*websocket.Conn]: a connection is known by its identity only. *)
Definition Conn := nat.

(** Go [error] values: the ones the client builds with [fmt.Errorf] (kept
    with their format string, no operand is ever passed) and the ones the
    websocket package hands back. *)
Inductive error :=
| Errorf (format : string)
| WireError (code : nat).

(** [time.Duration] and the [reconnects] counter are [int64]. *)
Definition int64_wrap (z : Z) : Z := (z + 2 ^ 63) `mod` 2 ^ 64 - 2 ^ 63.

Definition Second : Z := 1000000000.

(** ** Collaborators declared outside this file *)

(** Modelled from the spec: the outbound wire messages ("connect", resume
    "connect" with the session, "method", "sub", "ping", "pong"), whose
    constructors [NewConnect] ... [NewPong] are declared outside the file;
    each keeps exactly the operands it is built from. *)
Inductive OutMsg :=
| NewConnect
| NewReconnect (session : string)
| NewMethod (id method : string) (args : list JSON)
| NewSub (id name : string) (args : list JSON)
| NewPing (id : string)
| NewPong (id : string).

(** A [chan *Call]: its identity and its capacity ([cap(done)]). *)
Record Chan := { chan_id : nat; chan_cap : nat }.

(** Modelled from the spec: the [Call] struct (a method invocation or a
    subscription), declared outside the file; the fields are the ones the
    client reads and writes.  [Owner] always points back to the client and
    is left out. *)
Record Call := {
  ID : string;
  ServiceMethod : string;
  Args : list JSON;
  Reply : JSON;
  Error : option error;
  Done : Chan
}.

(** [new(Call)] with the assignments that [Go] and [Subscribe] make. *)
Definition new_Call (id method : string) (args : list JSON) (done : Chan) : Call :=
  {| ID := id; ServiceMethod := method; Args := args;
     Reply := JNull; Error := None; Done := done |}.

(** Modelled from the spec: the [Collection] handlers, declared outside the
    file.  [NewCollection name] is the replica [CollectionByName] creates,
    [NewMockCollection] the no-op sink, [CustomCollection] whatever a
    caller's [makeDefault] builds. *)
Inductive Collection :=
| NewCollection (name : string)
| NewMockCollection
| CustomCollection (tag : nat).

(** The five data-delta capabilities. *)
Inductive CollectionOp := Added | Changed | Removed | AddedBefore | MovedBefore.

(** A ping handler [func(error)]: a caller's closure, known by a tag, or the
    closure that [Ping] builds. *)
Inductive Handler :=
| UserHandler (tag : nat)
| PingHandler.

(** The function a [time.AfterFunc] timer runs. *)
Inductive TimerFunc :=
| HeartbeatFunc
| PingTimeoutFunc (h : Handler)
| ReconnectFunc.

(** A [*time.Timer] in the heap: still pending or not, its duration, its
    function. *)
Record Timer := { armed : bool; duration : Z; func : TimerFunc }.

Record pingTracker := { handler : Handler; timeout : Z; timer : nat }.

(** Goroutines the client starts. *)
Inductive Task :=
| inboxManagerTask
| inboxWorkerTask (conn : Conn)
| ReconnectTask.

(** What the client does to its collaborators, in program order. *)
Inductive Event :=
| EvSend (conn : Conn) (m : OutMsg) (r : option error)
| EvWsClose (conn : Conn)
| EvDone (call : Call)
| EvHandler (h : Handler) (err : option error)
| EvCollection (coll : Collection) (op : CollectionOp) (msg : Message)
| EvReset (coll : Collection)
| EvGo (t : Task).

(** The id minter embedded in [Client] and the websocket package are not
    part of the file; the client is verified against any of them. *)
Class Env := {
  idManager : Type;
  newidManager : idManager;
  newID : idManager -> string * idManager;
  World : Type;
  Dial : World -> string -> string -> World * (Conn + error);
  JSON_Send : World -> Conn -> OutMsg -> World * option error
}.

Section Client.
Context `{Env}.

(** ** The client and its runtime *)

Record Client := {
  HeartbeatInterval : Z;
  HeartbeatTimeout : Z;
  ReconnectInterval : Z;
  reconnects : Z;
  session : string;
  version : string;
  serverID : string;
  ws : option Conn;
  url : string;
  origin : string;
  pingTimer : option nat;
  pings : gmap string (list pingTracker);
  calls : gmap string Call;
  subs : gmap string Call;
  collections : gmap string Collection;
  ids : idManager
}.

Record Runtime := {
  timers : gmap nat Timer;
  next_timer : nat;
  next_chan : nat;
  world : World;
  trace : list Event
}.

Definition set_reconnects (x : Z) (c : Client) : Client :=
  {| HeartbeatInterval := HeartbeatInterval c; HeartbeatTimeout :=
     HeartbeatTimeout c; ReconnectInterval := ReconnectInterval c;
     reconnects := x; session := session c; version := version c; serverID
     := serverID c; ws := ws c; url := url c; origin := origin c; pingTimer
     := pingTimer c; pings := pings c; calls := calls c; subs := subs c;
     collections := collections c; ids := ids c |}.

Definition set_session (x : string) (c : Client) : Client :=
  {| HeartbeatInterval := HeartbeatInterval c; HeartbeatTimeout :=
     HeartbeatTimeout c; ReconnectInterval := ReconnectInterval c;
     reconnects := reconnects c; session := x; version := version c;
     serverID := serverID c; ws := ws c; url := url c; origin := origin c;
     pingTimer := pingTimer c; pings := pings c; calls := calls c; subs :=
     subs c; collections := collections c; ids := ids c |}.

Definition set_version (x : string) (c : Client) : Client :=
  {| HeartbeatInterval := HeartbeatInterval c; HeartbeatTimeout :=
     HeartbeatTimeout c; ReconnectInterval := ReconnectInterval c;
     reconnects := reconnects c; session := session c; version := x;
     serverID := serverID c; ws := ws c; url := url c; origin := origin c;
     pingTimer := pingTimer c; pings := pings c; calls := calls c; subs :=
     subs c; collections := collections c; ids := ids c |}.

Definition set_serverID (x : string) (c : Client) : Client :=
  {| HeartbeatInterval := HeartbeatInterval c; HeartbeatTimeout :=
     HeartbeatTimeout c; ReconnectInterval := ReconnectInterval c;
     reconnects := reconnects c; session := session c; version := version c;
     serverID := x; ws := ws c; url := url c; origin := origin c; pingTimer
     := pingTimer c; pings := pings c; calls := calls c; subs := subs c;
     collections := collections c; ids := ids c |}.

Definition set_ws (x : option Conn) (c : Client) : Client :=
  {| HeartbeatInterval := HeartbeatInterval c; HeartbeatTimeout :=
     HeartbeatTimeout c; ReconnectInterval := ReconnectInterval c;
     reconnects := reconnects c; session := session c; version := version c;
     serverID := serverID c; ws := x; url := url c; origin := origin c;
     pingTimer := pingTimer c; pings := pings c; calls := calls c; subs :=
     subs c; collections := collections c; ids := ids c |}.

Definition set_pingTimer (x : option nat) (c : Client) : Client :=
  {| HeartbeatInterval := HeartbeatInterval c; HeartbeatTimeout :=
     HeartbeatTimeout c; ReconnectInterval := ReconnectInterval c;
     reconnects := reconnects c; session := session c; version := version c;
     serverID := serverID c; ws := ws c; url := url c; origin := origin c;
     pingTimer := x; pings := pings c; calls := calls c; subs := subs c;
     collections := collections c; ids := ids c |}.

Definition set_pings (x : gmap string (list pingTracker)) (c : Client) : Client :=
  {| HeartbeatInterval := HeartbeatInterval c; HeartbeatTimeout :=
     HeartbeatTimeout c; ReconnectInterval := ReconnectInterval c;
     reconnects := reconnects c; session := session c; version := version c;
     serverID := serverID c; ws := ws c; url := url c; origin := origin c;
     pingTimer := pingTimer c; pings := x; calls := calls c; subs := subs c;
     collections := collections c; ids := ids c |}.

Definition set_calls (x : gmap string Call) (c : Client) : Client :=
  {| HeartbeatInterval := HeartbeatInterval c; HeartbeatTimeout :=
     HeartbeatTimeout c; ReconnectInterval := ReconnectInterval c;
     reconnects := reconnects c; session := session c; version := version c;
     serverID := serverID c; ws := ws c; url := url c; origin := origin c;
     pingTimer := pingTimer c; pings := pings c; calls := x; subs := subs c;
     collections := collections c; ids := ids c |}.

Definition set_subs (x : gmap string Call) (c : Client) : Client :=
  {| HeartbeatInterval := HeartbeatInterval c; HeartbeatTimeout :=
     HeartbeatTimeout c; ReconnectInterval := ReconnectInterval c;
     reconnects := reconnects c; session := session c; version := version c;
     serverID := serverID c; ws := ws c; url := url c; origin := origin c;
     pingTimer := pingTimer c; pings := pings c; calls := calls c; subs :=
     x; collections := collections c; ids := ids c |}.

Definition set_collections (x : gmap string Collection) (c : Client) : Client :=
  {| HeartbeatInterval := HeartbeatInterval c; HeartbeatTimeout :=
     HeartbeatTimeout c; ReconnectInterval := ReconnectInterval c;
     reconnects := reconnects c; session := session c; version := version c;
     serverID := serverID c; ws := ws c; url := url c; origin := origin c;
     pingTimer := pingTimer c; pings := pings c; calls := calls c; subs :=
     subs c; collections := x; ids := ids c |}.

Definition set_ids (x : idManager) (c : Client) : Client :=
  {| HeartbeatInterval := HeartbeatInterval c; HeartbeatTimeout :=
     HeartbeatTimeout c; ReconnectInterval := ReconnectInterval c;
     reconnects := reconnects c; session := session c; version := version c;
     serverID := serverID c; ws := ws c; url := url c; origin := origin c;
     pingTimer := pingTimer c; pings := pings c; calls := calls c; subs :=
     subs c; collections := collections c; ids := x |}.

Definition set_timers (x : gmap nat Timer) (r : Runtime) : Runtime :=
  {| timers := x; next_timer := next_timer r; next_chan := next_chan r;
     world := world r; trace := trace r |}.

Definition set_next_timer (x : nat) (r : Runtime) : Runtime :=
  {| timers := timers r; next_timer := x; next_chan := next_chan r; world :=
     world r; trace := trace r |}.

Definition set_next_chan (x : nat) (r : Runtime) : Runtime :=
  {| timers := timers r; next_timer := next_timer r; next_chan := x; world
     := world r; trace := trace r |}.

Definition set_world (x : World) (r : Runtime) : Runtime :=
  {| timers := timers r; next_timer := next_timer r; next_chan := next_chan
     r; world := x; trace := trace r |}.

Definition set_trace (x : list Event) (r : Runtime) : Runtime :=
  {| timers := timers r; next_timer := next_timer r; next_chan := next_chan
     r; world := world r; trace := x |}.


Record State := { client : Client; runtime : Runtime }.

(** How a method run ends; the state is the one reached at that point. *)
Inductive Outcome (A : Type) :=
| Ok (a : A) (s : State)
| Panic (why : string) (s : State)
| Fatal (s : State).
Arguments Ok {A} a s.
Arguments Panic {A} why s.
Arguments Fatal {A} s.

Definition M (A : Type) : Type := State -> Outcome A.

Definition ret {A} (a : A) : M A := fun s => Ok a s.

Definition bind {A B} (m : M A) (k : A -> M B) : M B := fun s =>
  match m s with
  | Ok a s' => k a s'
  | Panic why s' => Panic why s'
  | Fatal s' => Fatal s'
  end.

Notation "x <- m ;; k" := (bind m (fun x => k))
  (at level 100, m at next level, right associativity).
Notation "m ;;; k" := (bind m (fun _ => k))
  (at level 100, right associativity).

Definition panic {A} (why : string) : M A := fun s => Panic why s.

Definition get : M Client := fun s => Ok (client s) s.

Definition modify (f : Client -> Client) : M unit := fun s =>
  Ok tt {| client := f (client s); runtime := runtime s |}.

Definition modify_rt (f : Runtime -> Runtime) : M unit := fun s =>
  Ok tt {| client := client s; runtime := f (runtime s) |}.

Definition emit (e : Event) : M unit :=
  modify_rt (fun r => set_trace (trace r ++ [e]) r).

Fixpoint forM {A} (xs : list A) (f : A -> M unit) : M unit :=
  match xs with
  | [] => ret tt
  | x :: xs' => f x ;;; forM xs' f
  end.

(** ** Timers *)

(** [time.AfterFunc(d, f)] *)
Definition AfterFunc (d : Z) (f : TimerFunc) : M nat := fun s =>
  let r := runtime s in
  let t := next_timer r in
  Ok t {| client := client s;
          runtime := set_next_timer (S t)
                       (set_timers (<[t := {| armed := true; duration := d; func := f |}]> (timers r)) r) |}.

Definition stopped (tm : Timer) : Timer :=
  {| armed := false; duration := duration tm; func := func tm |}.

(** [t.Stop()] *)
Definition Timer_Stop (t : nat) : M unit :=
  modify_rt (fun r => set_timers (alter stopped t (timers r)) r).

(** [t.Reset(d)] *)
Definition Timer_Reset (t : nat) (d : Z) : M unit :=
  modify_rt (fun r =>
    set_timers (alter (fun tm => {| armed := true; duration := d; func := func tm |}) t (timers r)) r).

(** ** Sending and closing *)

Definition nil_deref : string := "invalid memory address or nil pointer dereference".

(** [Client.Send] *)
Definition Send (msg : OutMsg) : M (option error) := fun s =>
  match ws (client s) with
  | None => Ok (Some (Errorf "Tried to send message on a nil socket")) s
  | Some conn =>
      let '(w, r) := JSON_Send (world (runtime s)) conn msg in
      Ok r {| client := client s;
              runtime := set_trace (trace (runtime s) ++ [EvSend conn msg r])
                           (set_world w (runtime s)) |}
  end.

(** [Client.Close] *)
Definition Close : M unit :=
  c <- get ;;
  match pingTimer c with
  | None => panic nil_deref
  | Some t =>
      Timer_Stop t ;;;
      match ws c with
      | Some conn => emit (EvWsClose conn) ;;; modify (set_ws None)
      | None => ret tt
      end
  end.

(** [Client.start] *)
Definition start (conn : Conn) (connect : OutMsg) : M unit :=
  modify (set_ws (Some conn)) ;;;
  emit (EvGo (inboxWorkerTask conn)) ;;;
  _ <- Send connect ;;
  ret tt.

(** [websocket.Dial(c.url, "", c.origin)] *)
Definition dial (url origin : string) : M (Conn + error) := fun s =>
  let '(w, r) := Dial (world (runtime s)) url origin in
  Ok r {| client := client s; runtime := set_world w (runtime s) |}.

(** [Client.Reconnect].  Go ranges over a map in no specified order; the
    three loops below take the order of [map_to_list]. *)
Definition Reconnect : M unit :=
  Close ;;;
  modify (fun c => set_reconnects (int64_wrap (reconnects c + 1)) c) ;;;
  c <- get ;;
  r <- dial (url c) (origin c) ;;
  match r with
  | inr _ =>
      _ <- AfterFunc (ReconnectInterval c) ReconnectFunc ;;
      ret tt
  | inl conn =>
      start conn (NewReconnect (session c)) ;;;
      forM (map_to_list (calls c)) (fun kv =>
        _ <- Send (NewMethod (ID kv.2) (ServiceMethod kv.2) (Args kv.2)) ;;
        ret tt) ;;;
      forM (map_to_list (subs c)) (fun kv =>
        _ <- Send (NewSub (ID kv.2) (ServiceMethod kv.2) (Args kv.2)) ;;
        ret tt) ;;;
      forM (map_to_list (collections c)) (fun kv => emit (EvReset kv.2))
  end.

(** ** Calls and subscriptions *)

(** [c.newID()], on the embedded [idManager] *)
Definition Client_newID : M string :=
  c <- get ;;
  let '(id, m) := newID (ids c) in
  modify (set_ids m) ;;;
  ret id.

(** [make(chan *Call, n)] *)
Definition make_chan (n : nat) : M Chan := fun s =>
  let r := runtime s in
  Ok {| chan_id := next_chan r; chan_cap := n |}
     {| client := client s; runtime := set_next_chan (S (next_chan r)) r |}.

(** The [done] argument of [Go] and [Subscribe]: nil gets a fresh buffered
    channel, an unbuffered channel is refused with [log.Panic]. *)
Definition check_done (done : option Chan) : M Chan :=
  match done with
  | None => make_chan 10
  | Some ch =>
      if Nat.eqb (chan_cap ch) 0
      then panic "ddp.rpc: done channel is unbuffered"
      else ret ch
  end.

(** [Client.Subscribe] *)
Definition Subscribe (subName : string) (args : list JSON) (done : option Chan) : M Call :=
  id <- Client_newID ;;
  d <- check_done done ;;
  let call := new_Call id subName args d in
  modify (fun c => set_subs (<[ID call := call]> (subs c)) c) ;;;
  _ <- Send (NewSub (ID call) subName args) ;;
  ret call.

(** [Client.Go] *)
Definition Go (serviceMethod : string) (args : list JSON) (done : option Chan) : M Call :=
  id <- Client_newID ;;
  d <- check_done done ;;
  let call := new_Call id serviceMethod args d in
  modify (fun c => set_calls (<[ID call := call]> (calls c)) c) ;;;
  _ <- Send (NewMethod (ID call) serviceMethod args) ;;
  ret call.

(** ** Pings *)

(** Running a ping handler.  The closure of [Ping] starts a reconnect
    goroutine when it is given an error. *)
Definition call_handler (h : Handler) (err : option error) : M unit :=
  emit (EvHandler h err) ;;;
  match h, err with
  | PingHandler, Some _ => emit (EvGo ReconnectTask)
  | _, _ => ret tt
  end.

(** [Client.PingPong] *)
Definition PingPong (id : string) (timeout : Z) (handler : Handler) : M unit :=
  err <- Send (NewPing id) ;;
  match err with
  | Some e => call_handler handler (Some e)
  | None =>
      c <- get ;;
      let pings0 := default [] (pings c !! id) in
      t <- AfterFunc timeout (PingTimeoutFunc handler) ;;
      let tracker := {| handler := handler; timeout := timeout; timer := t |} in
      modify (fun c => set_pings (<[id := pings0 ++ [tracker]]> (pings c)) c)
  end.

(** [Client.Ping] *)
Definition Ping : M unit :=
  id <- Client_newID ;;
  c <- get ;;
  PingPong id (HeartbeatTimeout c) PingHandler.

(** ** Collections *)

(** [Client.CollectionByName] *)
Definition CollectionByName (name : string) : M Collection :=
  c <- get ;;
  match collections c !! name with
  | Some coll => ret coll
  | None =>
      let coll := NewCollection name in
      modify (fun c => set_collections (<[name := coll]> (collections c)) c) ;;;
      ret coll
  end.

(** [Client.CollectionByNameWithDefault] *)
Definition CollectionByNameWithDefault (name : string)
    (makeDefault : string -> Collection) : M Collection :=
  c <- get ;;
  match collections c !! name with
  | Some coll => ret coll
  | None =>
      let coll := makeDefault name in
      modify (fun c => set_collections (<[name := coll]> (collections c)) c) ;;;
      ret coll
  end.

(** [Client.collectionBy] *)
Definition collectionBy (msg : Message) : M Collection :=
  match msg !! "collection" with
  | None => ret NewMockCollection
  | Some (JString name) => CollectionByName name
  | Some _ => ret NewMockCollection
  end.

(** ** The dispatcher *)

(** The type assertion [v.(string)] *)
Definition assert_string (v : JSON) : M string :=
  match v with
  | JString x => ret x
  | _ => panic "interface conversion: interface {} is not string"
  end.

(** [call.done()]: the body is declared outside the file, the trace keeps
    the call as it is when the dispatcher completes it. *)
Definition Call_done (call : Call) : M unit := emit (EvDone call).

Definition with_Error (e : error) (call : Call) : Call :=
  {| ID := ID call; ServiceMethod := ServiceMethod call; Args := Args call;
     Reply := Reply call; Error := Some e; Done := Done call |}.

Definition with_Reply (v : JSON) (call : Call) : Call :=
  {| ID := ID call; ServiceMethod := ServiceMethod call; Args := Args call;
     Reply := v; Error := Error call; Done := Done call |}.

(** [log.Fatal]: the process exits. *)
Definition fatal {A} : M A := fun s => Fatal s.

(** The [case "pong"] arm *)
Definition on_pong (msg : Message) : M unit :=
  key <- match msg !! "id" with
         | Some v => assert_string v
         | None => ret ""
         end ;;
  c <- get ;;
  match pings c !! key with
  | Some (ping :: rest) =>
      (if Nat.eqb (String.length key) 0 || Nat.ltb 0 (length rest)
       then modify (fun c => set_pings (<[key := rest]> (pings c)) c)
       else ret tt) ;;;
      Timer_Stop (timer ping) ;;;
      call_handler (handler ping) None
  | _ => ret tt
  end.

(** The [case "nosub"] arm *)
Definition on_nosub (msg : Message) : M unit :=
  match msg !! "id" with
  | Some v =>
      sub <- assert_string v ;;
      modify (fun c => set_subs (delete sub (subs c)) c)
  | None => ret tt
  end.

(** The [case "ready"] arm *)
Definition on_ready (msg : Message) : M unit :=
  match msg !! "subs" with
  | Some (JArray xs) =>
      forM xs (fun v =>
        sub <- assert_string v ;;
        c <- get ;;
        match subs c !! sub with
        | Some call => Call_done call
        | None => ret tt
        end)
  | Some _ => panic "interface conversion: interface {} is not []interface {}"
  | None => ret tt
  end.

(** The [case "result"] arm *)
Definition on_result (msg : Message) : M unit :=
  match msg !! "id" with
  | Some v =>
      id <- assert_string v ;;
      c <- get ;;
      match calls c !! id with
      | Some call =>
          modify (fun c => set_calls (delete id (calls c)) c) ;;;
          match msg !! "error" with
          | Some e =>
              text <- assert_string e ;;
              Call_done (with_Error (Errorf text) call)
          | None =>
              Call_done (with_Reply (default JNull (msg !! "result")) call)
          end
      | None => ret tt
      end
  | None => ret tt
  end.

(** The five data-delta arms *)
Definition on_delta (op : CollectionOp) (msg : Message) : M unit :=
  coll <- collectionBy msg ;;
  emit (EvCollection coll op msg).

(** The [case "connected"] arm *)
Definition on_connected (msg : Message) : M unit :=
  modify (set_version "1") ;;;
  tok <- assert_string (default JNull (msg !! "session")) ;;
  modify (set_session tok) ;;;
  c <- get ;;
  t <- AfterFunc (HeartbeatInterval c) HeartbeatFunc ;;
  modify (set_pingTimer (Some t)).

(** The [case "ping"] arm *)
Definition on_ping (msg : Message) : M unit :=
  match msg !! "id" with
  | Some v =>
      id <- assert_string v ;;
      _ <- Send (NewPong id) ;;
      ret tt
  | None =>
      _ <- Send (NewPong "") ;;
      ret tt
  end.

(** A message without a [msg] field *)
Definition on_untyped (msg : Message) : M unit :=
  match msg !! "server_id" with
  | Some (JString id) => modify (set_serverID id)
  | _ => ret tt
  end.

(** The body of [case msg := <-c.inbox] in [Client.inboxManager] *)
Definition dispatch (msg : Message) : M unit :=
  match msg !! "msg" with
  | Some mtype =>
      m <- assert_string mtype ;;
      if String.eqb m "connected" then on_connected msg
      else if String.eqb m "failed" then fatal
      else if String.eqb m "ping" then on_ping msg
      else if String.eqb m "pong" then on_pong msg
      else if String.eqb m "nosub" then on_nosub msg
      else if String.eqb m "ready" then on_ready msg
      else if String.eqb m "added" then on_delta Added msg
      else if String.eqb m "changed" then on_delta Changed msg
      else if String.eqb m "removed" then on_delta Removed msg
      else if String.eqb m "addedBefore" then on_delta AddedBefore msg
      else if String.eqb m "movedBefore" then on_delta MovedBefore msg
      else if String.eqb m "result" then on_result msg
      else if String.eqb m "updated" then ret tt
      else ret tt
  | None => on_untyped msg
  end.

(** What the [select] of [inboxManager] receives. *)
Inductive InboxItem :=
| FromInbox (msg : Message)
| FromErrors (err : error).

(** [Client.inboxManager], run over the items that arrive. *)
Definition inboxManager (items : list InboxItem) : M unit :=
  forM items (fun it =>
    match it with
    | FromInbox msg => dispatch msg
    | FromErrors _ => ret tt
    end).

(** ** Timer expiry *)

(** The runtime runs the function of a pending timer. *)
Definition Fire (t : nat) : M unit := fun s =>
  match timers (runtime s) !! t with
  | Some {| armed := true; duration := d; func := f |} =>
      (modify_rt (fun r =>
         set_timers (<[t := {| armed := false; duration := d; func := f |}]> (timers r)) r) ;;;
       match f with
       | PingTimeoutFunc h => call_handler h (Some (Errorf "ping timeout"))
       | ReconnectFunc => Reconnect
       | HeartbeatFunc =>
           c <- get ;;
           match ws c with
           | Some _ =>
               Ping ;;;
               c <- get ;;
               match pingTimer c with
               | Some pt => Timer_Reset pt (HeartbeatInterval c)
               | None => panic nil_deref
               end
           | None => ret tt
           end
       end) s
  | _ => Ok tt s
  end.

(** ** Construction and the synchronous wrappers *)

(** [NewClient]: the client literal, the dispatcher goroutine, [start]. *)
Definition NewClient (w : World) (url origin : string) : error + Outcome unit :=
  match Dial w url origin with
  | (_, inr err) => inl err
  | (w', inl conn) =>
      let c := {| HeartbeatInterval := 45 * Second;
                  HeartbeatTimeout := 15 * Second;
                  ReconnectInterval := 5 * Second;
                  reconnects := 0; session := ""; version := ""; serverID := "";
                  ws := Some conn; url := url; origin := origin;
                  pingTimer := None; pings := ∅; calls := ∅; subs := ∅;
                  collections := ∅; ids := newidManager |} in
      let r := {| timers := ∅; next_timer := O; next_chan := O;
                  world := w'; trace := [] |} in
      inr ((emit (EvGo inboxManagerTask) ;;; start conn NewConnect)
             {| client := c; runtime := r |})
  end.

(** Modelled from the spec: [Call.done], declared outside the file,
    signals the completion sink of the call; a receive on the sink yields
    the calls signalled on it, oldest first. *)
Definition delivered (ch : Chan) (tr : list Event) : list Call :=
  omap (fun e => match e with
                 | EvDone call =>
                     if Nat.eqb (chan_id (Done call)) (chan_id ch) then Some call else None
                 | _ => None
                 end) tr.

(** [Client.Sub]: the caller subscribes on a fresh channel of capacity 1,
    the dispatcher handles [inbox], and the caller receives from [Done].
    [None] is a caller still blocked on the receive. *)
Definition Sub (subName : string) (args : list JSON) (inbox : list InboxItem)
    : M (option (option error)) :=
  done <- make_chan 1 ;;
  call <- Subscribe subName args (Some done) ;;
  inboxManager inbox ;;;
  fun s => Ok (Error <$> head (delivered (Done call) (trace (runtime s)))) s.

(** [Client.Call], in the same way. *)
Definition Call_sync (serviceMethod : string) (args : list JSON) (inbox : list InboxItem)
    : M (option (JSON * option error)) :=
  done <- make_chan 1 ;;
  call <- Go serviceMethod args (Some done) ;;
  inboxManager inbox ;;;
  fun s => Ok ((fun k => (Reply k, Error k)) <$> head (delivered (Done call) (trace (runtime s)))) s.

(** ** Accessors and statistics of the client *)

(** [Client.Session] *)
Definition Session : M string := c <- get ;; ret (session c).

(** [Client.Version] *)
Definition Version : M string := c <- get ;; ret (version c).

(** [Client.ResetStats] *)
Definition ResetStats : M unit := modify (set_reconnects 0).

(** ** The inbox worker *)

(** What one [websocket.JSON.Receive] yields: an error other than
    [io.EOF], [io.EOF], or a decoded value, which is nil, an object, or
    anything else (a string, a number, an array, ...). *)
Inductive Frame :=
| FrameError (err : error)
| FrameEOF
| FrameNil
| FrameObject (msg : Message)
| FrameOther (v : JSON).

(** The [for] loop of [Client.inboxWorker] over the frames the socket
    delivers: what it puts on the [inbox] and [errors] channels, oldest
    first, and whether it has left the loop ([false]: it waits in
    [Receive] for the next frame). *)
Fixpoint inboxWorker_loop (frames : list Frame) : M (list InboxItem * bool) :=
  match frames with
  | [] => ret ([], false)
  | FrameEOF :: _ => ret ([], true)
  | FrameError err :: _ => ret ([FromErrors err], true)
  | f :: rest =>
      c <- get ;;
      match pingTimer c with
      | Some t => Timer_Reset t (HeartbeatInterval c)
      | None => ret tt
      end ;;;
      match f with
      | FrameObject msg =>
          r <- inboxWorker_loop rest ;;
          ret (FromInbox msg :: r.1, r.2)
      | FrameNil => inboxWorker_loop rest
      | _ => panic "interface conversion: interface {} is not map[string]interface {}"
      end
  end.

(** [Client.inboxWorker]: the loop, then [Close] and the reconnect timer. *)
Definition inboxWorker (frames : list Frame) : M (list InboxItem) :=
  r <- inboxWorker_loop frames ;;
  if r.2 then
    Close ;;;
    c <- get ;;
    _ <- AfterFunc (ReconnectInterval c) ReconnectFunc ;;
    ret r.1
  else ret r.1.

End Client.

Arguments Ok {_ A} a s.
Arguments Panic {_ A} why s.
Arguments Fatal {_ A} s.

Notation "x <- m ;; k" := (bind m (fun x => k))
  (at level 100, m at next level, right associativity).
Notation "m ;;; k" := (bind m (fun _ => k))
  (at level 100, right associativity).

(** The bucket a [pong] is served from: its [id], or the empty string. *)
Definition pong_bucket (msg : Message) (key : string) : Prop :=
  msg !! "id" = Some (JString key) \/ (msg !! "id" = None /\ key = "").

(** ** I/O statistics and logging

    The first half of the source: [Logger], [StatsTracker] and the reader
    and writer wrappers built on them. *)

(** The [error] an i/o operation returns: [io.EOF] or another one. *)
Inductive io_error :=
| EOF
| Failure (e : error).

(** A [[]byte]: the bytes of its backing array from the start of the slice
    up to its capacity, and its length. *)
Record Slice := { backing : list Byte.byte; slice_len : nat }.

(** [p[:limit]]: a slice bound outside [0, cap(p)] panics. *)
Definition reslice (p : Slice) (limit : Z) : option (list Byte.byte) :=
  if (0 <=? limit) && (limit <=? Z.of_nat (length (backing p)))
  then Some (take (Z.to_nat limit) (backing p))
  else None.

Definition DataByte : Z := 0.
Definition DataText : Z := 1.

(** [Logger], without the [logrus] entry it writes to. *)
Record Logger := { Active : bool; Truncate : Z; dtype : Z }.

(** [NewLogger] *)
Definition NewLogger (active : bool) (dataType truncate : Z) : Logger :=
  {| Active := active; Truncate := truncate; dtype := dataType |}.

(** What [Log] writes: [Printf("[%d] %s", n, text)], with three dots after
    the text when it was cut, or [Println(hex.Dump(data))]. *)
Inductive LogLine :=
| Printf_text (n : Z) (text : list Byte.byte) (dots : bool)
| Println_dump (data : list Byte.byte).

Definition payload (l : LogLine) : list Byte.byte :=
  match l with
  | Printf_text _ text _ => text
  | Println_dump data => data
  end.

(** [Logger.Log]: the lines written and the values returned, or [None]
    when the slice expression panics. *)
Definition Log (l : Logger) (p : Slice) (n : Z) (err : option io_error)
    : option (list LogLine * (Z * option io_error)) :=
  match Active l, err with
  | true, None =>
      let truncated := (0 <? Truncate l) && (Truncate l <? n) in
      let limit := if truncated then Truncate l else n in
      match reslice p limit with
      | Some data =>
          if dtype l =? DataText
          then Some ([Printf_text n data truncated], (n, err))
          else Some ([Println_dump data], (n, err))
      | None => None
      end
  | _, _ => Some ([], (n, err))
  end.

(** A wrapped [io.Reader]: one [Read(p)] fills the buffer and returns a
    count and an error. *)
Definition Reader : Type := Slice -> Slice * Z * option io_error.

(** A wrapped [io.Writer]: one [Write(p)] returns a count and an error. *)
Definition Writer : Type := Slice -> Z * option io_error.

(** [ReaderLogger]: the embedded [Logger] and [ReaderProxy]. *)
Record ReaderLogger := { rl_Logger : Logger; rl_reader : Reader }.

(** [WriterLogger]: the embedded [Logger] and [WriterProxy]. *)
Record WriterLogger := { wl_Logger : Logger; wl_writer : Writer }.

(** [NewReaderLogger] *)
Definition NewReaderLogger (reader : Reader) (active : bool)
    (dataType truncate : Z) : ReaderLogger :=
  {| rl_Logger := NewLogger active dataType truncate; rl_reader := reader |}.

(** [NewReaderDataLogger] *)
Definition NewReaderDataLogger (reader : Reader) : ReaderLogger :=
  NewReaderLogger reader true DataByte 0.

(** [NewReaderTextLogger] *)
Definition NewReaderTextLogger (reader : Reader) : ReaderLogger :=
  NewReaderLogger reader true DataText 80.

(** [NewWriterLogger] *)
Definition NewWriterLogger (writer : Writer) (active : bool)
    (dataType truncate : Z) : WriterLogger :=
  {| wl_Logger := NewLogger active dataType truncate; wl_writer := writer |}.

(** [NewWriterDataLogger] *)
Definition NewWriterDataLogger (writer : Writer) : WriterLogger :=
  NewWriterLogger writer true DataByte 0.

(** [NewWriterTextLogger] *)
Definition NewWriterTextLogger (writer : Writer) : WriterLogger :=
  NewWriterLogger writer true DataText 80.

(** [ReaderLogger.Read]: the buffer as the reader left it comes back with
    the lines and the result. *)
Definition ReaderLogger_Read (r : ReaderLogger) (p : Slice)
    : option (Slice * list LogLine * (Z * option io_error)) :=
  let '(p', n, err) := rl_reader r p in
  match Log (rl_Logger r) p' n err with
  | Some (lines, res) => Some (p', lines, res)
  | None => None
  end.

(** [WriterLogger.Write] *)
Definition WriterLogger_Write (w : WriterLogger) (p : Slice)
    : option (list LogLine * (Z * option io_error)) :=
  let '(n, err) := wl_writer w p in
  Log (wl_Logger w) p n err.

(** A [time.Time] taken with [time.Now]: its monotonic clock reading, in
    nanoseconds. *)
Definition Time : Type := Z.

Definition maxDuration : Z := 2 ^ 63 - 1.
Definition minDuration : Z := - 2 ^ 63.

(** [time.Since(start)] when the clock reads [now]: the difference of the
    two monotonic readings, saturated as [time.subMono] does. *)
Definition Since (now start : Time) : Z :=
  let d := int64_wrap (now - start) in
  if (d <? 0) && (start <? now) then maxDuration
  else if (0 <? d) && (now <? start) then minDuration
  else d.

(** [Stats] *)
Record Stats := { Bytes : Z; Ops : Z; Errors : Z; Runtime_ : Z }.

(** [StatsTracker], without its mutex. *)
Record StatsTracker := { st_bytes : Z; st_ops : Z; st_errors : Z; st_start : Time }.

(** [NewStatsTracker], when the clock reads [now]. *)
Definition NewStatsTracker (now : Time) : StatsTracker :=
  {| st_bytes := 0; st_ops := 0; st_errors := 0; st_start := now |}.

(** [StatsTracker.Op] *)
Definition Op (t : StatsTracker) (n : Z) (err : option io_error)
    : StatsTracker * (Z * option io_error) :=
  let ops := int64_wrap (st_ops t + 1) in
  match err with
  | None =>
      ({| st_bytes := int64_wrap (st_bytes t + n); st_ops := ops;
          st_errors := st_errors t; st_start := st_start t |}, (n, err))
  | Some EOF =>
      ({| st_bytes := st_bytes t; st_ops := ops;
          st_errors := st_errors t; st_start := st_start t |}, (n, err))
  | Some (Failure _) =>
      ({| st_bytes := st_bytes t; st_ops := ops;
          st_errors := int64_wrap (st_errors t + 1); st_start := st_start t |}, (n, err))
  end.

(** [StatsTracker.snap], when the clock reads [now]. *)
Definition snap (t : StatsTracker) (now : Time) : Stats :=
  {| Bytes := st_bytes t; Ops := st_ops t; Errors := st_errors t;
     Runtime_ := Since now (st_start t) |}.

(** [StatsTracker.Snapshot] *)
Definition Snapshot (t : StatsTracker) (now : Time) : Stats := snap t now.

(** [StatsTracker.Reset]: the clock is read twice, for the snapshot
    ([now]) and for the new start ([later]). *)
Definition StatsTracker_Reset (t : StatsTracker) (now later : Time)
    : StatsTracker * Stats :=
  ({| st_bytes := 0; st_ops := 0; st_errors := 0; st_start := later |}, snap t now).

(** [ReaderStats]: the embedded [StatsTracker] and [ReaderProxy]. *)
Record ReaderStats := { rs_Tracker : StatsTracker; rs_reader : Reader }.

(** [WriterStats]: the embedded [StatsTracker] and [WriterProxy]. *)
Record WriterStats := { ws_Tracker : StatsTracker; ws_writer : Writer }.

(** [NewReaderStats], when the clock reads [now]. *)
Definition NewReaderStats (reader : Reader) (now : Time) : ReaderStats :=
  {| rs_Tracker := NewStatsTracker now; rs_reader := reader |}.

(** [NewWriterStats], when the clock reads [now]. *)
Definition NewWriterStats (writer : Writer) (now : Time) : WriterStats :=
  {| ws_Tracker := NewStatsTracker now; ws_writer := writer |}.




(** [ReaderProxy.SetReader] and [WriterProxy.SetWriter], on the wrappers
    that embed the proxies. *)
Definition ReaderStats_SetReader (r : ReaderStats) (reader : Reader) : ReaderStats :=
  {| rs_Tracker := rs_Tracker r; rs_reader := reader |}.

Definition WriterStats_SetWriter (w : WriterStats) (writer : Writer) : WriterStats :=
  {| ws_Tracker := ws_Tracker w; ws_writer := writer |}.

(** A run of operations on one tracker, and what it should have counted:
    the bytes of the operations without error, and the operations whose
    error is not [io.EOF]. *)
Definition Op_all (t : StatsTracker) (rs : list (Z * option io_error)) : StatsTracker :=
  foldl (fun t r => (Op t r.1 r.2).1) t rs.

Definition bytes_moved (rs : list (Z * option io_error)) : Z :=
  foldr (fun r acc => match r.2 with None => r.1 + acc | Some _ => acc end) 0 rs.

Definition failures (rs : list (Z * option io_error)) : Z :=
  foldr (fun r acc => match r.2 with Some (Failure _) => 1 + acc | _ => acc end) 0 rs.

Definition in_int64 (z : Z) : Prop := - 2 ^ 63 <= z < 2 ^ 63.

(** A frame that the worker forwards or drops: a decoded object, or nil. *)
Definition decoded (o : option Message) : Frame :=
  match o with
  | Some msg => FrameObject msg
  | None => FrameNil
  end.

(** [t.Reset(d)] on the timer itself. *)
Definition rearmed (d : Z) (tm : Timer) : Timer :=
  {| armed := true; duration := d; func := func tm |}.

(** ** A sample environment

    Ids are minted as "s1", "s2", ...; every dial succeeds and returns a
    new connection; every write on a connection succeeds. *)

Definition sample_env : Env :=
  {| idManager := nat;
     newidManager := 1%nat;
     newID := fun n => ("s" +:+ pretty n, S n);
     World := nat;
     Dial := fun w _ _ => (S w, inl (S w));
     JSON_Send := fun w _ _ => (w, None) |}.

Section Samples.
#[local] Existing Instance sample_env.

(** The session [NewClient] returns, before any message is dispatched. *)
Definition fresh_session : State :=
  match NewClient O "ws://host/websocket" "http://host" with
  | inr (Ok _ s) => s
  | _ => {| client := Build_Client 0 0 0 0 "" "" "" None "" "" None ∅ ∅ ∅ ∅ 1%nat;
            runtime := Build_Runtime ∅ O O O [] |}
  end.

Definition msg_connected : Message :=
  {[ "msg" := JString "connected"; "session" := JString "tok" ]}.

(** The state in which a run ends. *)
Definition after {A} (m : M A) (s : State) : State :=
  match m s with
  | Ok _ s' => s'
  | Panic _ s' => s'
  | Fatal s' => s'
  end.

(** The session once the server has answered "connected". *)
Definition live_session : State := after (dispatch msg_connected) fresh_session.

(** A live session with a call "s1" and a subscription "s2" in flight and
    a collection "c". *)
Definition busy_session : State :=
  after (CollectionByName "c")
    (after (Subscribe "stream" [] None)
       (after (Go "echo" [JString "x"] None) live_session)).

Definition echo_call : Call :=
  new_Call "s1" "echo" [JString "x"] {| chan_id := 0; chan_cap := 10 |}.

Definition closed_session : State := after Close live_session.

Definition resumed_session : State := after Reconnect busy_session.

Definition msg_nosub : Message :=
  {[ "msg" := JString "nosub"; "id" := JString "s1"; "error" := JString "denied" ]}.

Definition msg_result_boom : Message :=
  {[ "msg" := JString "result"; "id" := JString "s1"; "error" := JString "boom" ]}.

Definition msg_result_x : Message :=
  {[ "msg" := JString "result"; "id" := JString "s1"; "result" := JString "x" ]}.

Definition msg_added_c : Message :=
  {[ "msg" := JString "added"; "collection" := JString "c"; "id" := JString "r1" ]}.

Definition msg_added_nowhere : Message :=
  {[ "msg" := JString "added"; "id" := JString "r1" ]}.

Definition msg_pong_p1 : Message :=
  {[ "msg" := JString "pong"; "id" := JString "p1" ]}.

Definition msg_pong_anon : Message := {[ "msg" := JString "pong" ]}.

Definition msg_pong_empty : Message :=
  {[ "msg" := JString "pong"; "id" := JString "" ]}.

(** The calls a handler has received, oldest first. *)
Definition handler_calls (h : Handler) (tr : list Event) : list (option error) :=
  omap (fun e => match e with
                 | EvHandler (UserHandler n) err =>
                     match h with
                     | UserHandler k => if Nat.eqb n k then Some err else None
                     | PingHandler => None
                     end
                 | EvHandler PingHandler err =>
                     match h with PingHandler => Some err | _ => None end
                 | _ => None
                 end) tr.

Definition msg_updated : Message := {[ "msg" := JString "updated" ]}.


Definition msg_ping_7 : Message :=
  {[ "msg" := JString "ping"; "id" := JString "7" ]}.

Definition msg_connected_bare : Message := {[ "msg" := JString "connected" ]}.

Definition msg_pong_number : Message :=
  {[ "msg" := JString "pong"; "id" := JNumber 7 ]}.

Definition msg_ready_s1 : Message :=
  {[ "msg" := JString "ready"; "subs" := JArray [JString "s1"] ]}.

Definition msg_ready_s2_zz : Message :=
  {[ "msg" := JString "ready"; "subs" := JArray (JString <$> ["s2"; "zz"]) ]}.

(** The closed session on which a call is made, before and after the next
    reconnect. *)
Definition offline_session : State :=
  after (Go "echo" [JString "x"] None) closed_session.

Definition back_online_session : State := after Reconnect offline_session.

Definition stream_call : Call :=
  new_Call "s2" "stream" [] {| chan_id := 1; chan_cap := 10 |}.

(** Frames as a socket may deliver them: an object, a nil frame, the end
    of the stream, and a frame that is never read. *)
Definition frames_until_eof : list Frame :=
  (decoded <$> [Some msg_updated; None; Some msg_ping_7])
    ++ FrameEOF :: [FrameObject msg_updated].

End Samples.

(** Samples for the statistics and the loggers *)

Definition sample_ops : list (Z * option io_error) :=
  [(10, None); (0, Some EOF); (3, Some (Failure (WireError 1))); (5, None)].

Definition sample_buffer : Slice :=
  {| backing := [Byte.x68; Byte.x65; Byte.x6c; Byte.x6c; Byte.x6f];
     slice_len := 5 |}.

Definition short_text_logger : Logger := NewLogger true DataText 3.

(** ** A second environment: the first dial succeeds, every later one
    fails. *)

Definition flaky_env : Env :=
  {| idManager := nat;
     newidManager := 1%nat;
     newID := fun n => ("s" +:+ pretty n, S n);
     World := nat;
     Dial := fun w _ _ =>
       match w with
       | O => (1%nat, inl 1%nat)
       | S _ => (S w, inr (WireError w))
       end;
     JSON_Send := fun w _ _ => (w, None) |}.

Section FlakySamples.
#[local] Existing Instance flaky_env.

(** A live session whose server can no longer be dialed. *)
Definition stranded_session : State :=
  match NewClient O "ws://host/websocket" "http://host" with
  | inr (Ok _ s0) =>
      match dispatch msg_connected s0 with
      | Ok _ s1 => s1
      | _ => s0
      end
  | _ => {| client := Build_Client 0 0 0 0 "" "" "" None "" "" None ∅ ∅ ∅ ∅ 1%nat;
                runtime := Build_Runtime ∅ O O O [] |}
  end.

(** The same session after a [Reconnect] whose dial has failed. *)
Definition retrying_session : State :=
  match Reconnect stranded_session with
  | Ok _ s => s
  | _ => stranded_session
  end.

End FlakySamples.

Section Properties.
Context `{Env}.

Ltac run :=
  repeat (first
    [ progress unfold bind, ret, get, modify, modify_rt, emit, panic, fatal,
        Timer_Stop, Timer_Reset, AfterFunc, make_chan, Call_done
    | progress simpl ]).

(** *** Send *)

Lemma Send_live s conn msg :
  ws (client s) = Some conn ->
  Send msg s =
    Ok (JSON_Send (world (runtime s)) conn msg).2
       {| client := client s;
          runtime :=
            set_trace (trace (runtime s)
                         ++ [EvSend conn msg (JSON_Send (world (runtime s)) conn msg).2])
              (set_world (JSON_Send (world (runtime s)) conn msg).1 (runtime s)) |}.
Proof.
  intros Hws. unfold Send. rewrite Hws.
  destruct (JSON_Send _ conn msg); reflexivity.
Qed.

Lemma Send_nil_socket_eq s msg :
  ws (client s) = None ->
  Send msg s = Ok (Some (Errorf "Tried to send message on a nil socket")) s.
Proof. intros Hws. unfold Send. by rewrite Hws. Qed.

(** C10: on a nil socket [Send] returns an error and leaves the session
    as it is. *)
Theorem Send_nil_socket s msg :
  ws (client s) = None ->
  Send msg s = Ok (Some (Errorf "Tried to send message on a nil socket")) s.
Proof.
  intros Hws. unfold Send. rewrite Hws. reflexivity.
Qed.

(** *** Close *)

Lemma Close_unstarted s :
  pingTimer (client s) = None -> Close s = Panic nil_deref s.
Proof. intros Ht. unfold Close. run. rewrite Ht. reflexivity. Qed.

Lemma Close_inv s s' :
  Close s = Ok tt s' ->
  exists t, pingTimer (client s) = Some t
    /\ client s' = set_ws None (client s)
    /\ world (runtime s') = world (runtime s)
    /\ trace (runtime s') =
         trace (runtime s)
           ++ match ws (client s) with Some conn => [EvWsClose conn] | None => [] end.
Proof.
  unfold Close. run.
  destruct (pingTimer (client s)) as [t|] eqn:Ht; [|discriminate].
  run. destruct (ws (client s)) as [conn|] eqn:Hws; run;
    intros [= <-]; exists t; simpl; repeat split; try done.
  - destruct (client s); simpl in *; subst; reflexivity.
  - by rewrite app_nil_r.
Qed.




(** *** Reconnect *)

Lemma bind_Ok {A B} (m : M A) (k : A -> M B) s a s1 :
  m s = Ok a s1 -> bind m k s = k a s1.
Proof. intros Hm. unfold bind. by rewrite Hm. Qed.

(** A loop of sends on a live socket: one write per element, in order,
    and nothing of the client changes. *)
Lemma forM_Send {A} (f : A -> OutMsg) (xs : list A) s conn :
  ws (client s) = Some conn ->
  exists s' evs,
    forM xs (fun x => _ <- Send (f x) ;; ret tt) s = Ok tt s'
    /\ client s' = client s
    /\ trace (runtime s') = trace (runtime s) ++ evs
    /\ Forall2 (fun x e => exists r, e = EvSend conn (f x) r) xs evs.
Proof.
  revert s. induction xs as [|x xs IH]; intros s Hws; simpl.
  - exists s, []. rewrite app_nil_r. repeat split; constructor.
  - unfold bind at 1 2. rewrite (Send_live _ conn) by done. unfold ret at 1.
    match goal with |- context [forM xs _ ?s1] =>
      destruct (IH s1) as (s' & evs & Hrun & Hc & Htr & Hall); [done|] end.
    eexists s', (_ :: evs). rewrite Hrun. repeat split; [done| |].
    + rewrite Htr. simpl. by rewrite <- app_assoc.
    + constructor; eauto.
Qed.

(** A loop of resets: one [Reset] per element, in order. *)
Lemma forM_Reset {A} (g : A -> Collection) (xs : list A) s :
  exists s',
    forM xs (fun x => emit (EvReset (g x))) s = Ok tt s'
    /\ client s' = client s
    /\ trace (runtime s') = trace (runtime s) ++ map (fun x => EvReset (g x)) xs.
Proof.
  revert s. induction xs as [|x xs IH]; intros s; simpl.
  - exists s. by rewrite app_nil_r.
  - destruct (IH {| client := client s;
                     runtime := set_trace (trace (runtime s) ++ [EvReset (g x)])
                                  (runtime s) |})
      as (s' & Hrun & Hc & Htr).
    exists s'. rewrite (bind_Ok (emit (EvReset (g x))) _ s tt _ eq_refl).
    repeat split; [done..|].
    rewrite Htr. simpl. by rewrite <- app_assoc.
Qed.


Lemma Reconnect_dialed s s' conn :
  Reconnect s = Ok tt s' ->
  ws (client s') = Some conn ->
  exists r0 sent_calls sent_subs,
    trace (runtime s') =
      trace (runtime s)
        ++ match ws (client s) with Some old => [EvWsClose old] | None => [] end
        ++ [EvGo (inboxWorkerTask conn);
            EvSend conn (NewReconnect (session (client s))) r0]
        ++ sent_calls ++ sent_subs
        ++ map (fun kv => EvReset kv.2) (map_to_list (collections (client s)))
    /\ Forall2 (fun kv e => exists r,
          e = EvSend conn (NewMethod (ID kv.2) (ServiceMethod kv.2) (Args kv.2)) r)
         (map_to_list (calls (client s))) sent_calls
    /\ Forall2 (fun kv e => exists r,
          e = EvSend conn (NewSub (ID kv.2) (ServiceMethod kv.2) (Args kv.2)) r)
         (map_to_list (subs (client s))) sent_subs
    /\ client s' =
         set_ws (Some conn)
           (set_reconnects (int64_wrap (reconnects (client s) + 1)) (client s)).
Proof.
  intros Hrun Hws. unfold Reconnect in Hrun.
  unfold bind at 1 in Hrun.
  destruct (Close s) as [[] s1| |] eqn:HC; try discriminate.
  apply Close_inv in HC as (t & Ht & Hc1 & Hw1 & Htr1).
  unfold bind at 1 in Hrun. unfold modify at 1 in Hrun.
  unfold bind at 1 in Hrun. unfold get at 1 in Hrun.
  unfold bind at 1 in Hrun. unfold dial at 1 in Hrun. simpl in Hrun.
  assert (Hcalls : calls (client s1) = calls (client s)) by (by rewrite Hc1).
  assert (Hsubs : subs (client s1) = subs (client s)) by (by rewrite Hc1).
  assert (Hcolls : collections (client s1) = collections (client s)) by (by rewrite Hc1).
  assert (Hsess : session (client s1) = session (client s)) by (by rewrite Hc1).
  rewrite Hcalls, Hsubs, Hcolls, Hsess in Hrun.
  destruct (Dial _ _ _) as [w [newc|err]].
  - unfold bind at 1, start at 1 in Hrun. unfold bind at 1 in Hrun.
    unfold modify at 1 in Hrun. unfold bind at 1 in Hrun.
    unfold emit at 1, modify_rt at 1 in Hrun. unfold bind at 1 in Hrun.
    rewrite (Send_live _ newc) in Hrun by done. unfold ret at 1 in Hrun.
    simpl in Hrun.
    match type of Hrun with _ ?s2 = _ => set (st2 := s2) in Hrun end.
    destruct (forM_Send
                (fun kv : string * Call =>
                   NewMethod (ID kv.2) (ServiceMethod kv.2) (Args kv.2))
                (map_to_list (calls (client s))) st2 newc)
      as (s3 & evc & Hrc & Hc3 & Htr3 & Hall3); [done|].
    unfold bind at 1 in Hrun. rewrite Hrc in Hrun.
    destruct (forM_Send
                (fun kv : string * Call =>
                   NewSub (ID kv.2) (ServiceMethod kv.2) (Args kv.2))
                (map_to_list (subs (client s))) s3 newc)
      as (s4 & evs & Hrs & Hc4 & Htr4 & Hall4); [by rewrite Hc3|].
    unfold bind at 1 in Hrun. rewrite Hrs in Hrun.
    destruct (forM_Reset (fun kv : string * Collection => kv.2)
                (map_to_list (collections (client s))) s4)
      as (s5 & Hrr & Hc5 & Htr5).
    rewrite Hrr in Hrun. injection Hrun as <-.
    rewrite Hc5, Hc4, Hc3 in Hws. simpl in Hws. injection Hws as ->.
    eexists _, evc, evs. repeat split; [|done|done|].
    + rewrite Htr5, Htr4, Htr3. simpl. rewrite Htr1.
      rewrite <- !app_assoc. reflexivity.
    + rewrite Hc5, Hc4, Hc3. simpl. rewrite Hc1. reflexivity.
  - cbv [bind AfterFunc ret] in Hrun. injection Hrun as <-.
    simpl in Hws. rewrite Hc1 in Hws. discriminate.
Qed.

Lemma sent_for_each {A} (P : string * A -> Event -> Prop)
    (m : gmap string A) (evs : list Event) k v :
  Forall2 P (map_to_list m) evs ->
  m !! k = Some v ->
  exists e, e ∈ evs /\ P (k, v) e.
Proof.
  intros Hall Hk. apply elem_of_map_to_list in Hk.
  apply list_elem_of_lookup in Hk as [i Hi].
  destruct (Forall2_lookup_l _ _ _ _ _ Hall Hi) as (e & He & HP).
  exists e. split; [|done]. apply list_elem_of_lookup. eauto.
Qed.

(** C5: a reconnect that dials a new transport sends every registered
    call and every registered subscription again, with the id, name and
    arguments it was registered with, resets every collection, and leaves
    both registries as they were. *)
Theorem Reconnect_replays s s' conn :
  Reconnect s = Ok tt s' ->
  ws (client s') = Some conn ->
  exists evs,
    trace (runtime s') = trace (runtime s) ++ evs
    /\ (forall id call, calls (client s) !! id = Some call ->
          exists r, EvSend conn
                      (NewMethod (ID call) (ServiceMethod call) (Args call)) r ∈ evs)
    /\ (forall id sub, subs (client s) !! id = Some sub ->
          exists r, EvSend conn
                      (NewSub (ID sub) (ServiceMethod sub) (Args sub)) r ∈ evs)
    /\ (forall name coll, collections (client s) !! name = Some coll ->
          EvReset coll ∈ evs)
    /\ calls (client s') = calls (client s)
    /\ subs (client s') = subs (client s)
    /\ dom (calls (client s')) = dom (calls (client s))
    /\ dom (subs (client s')) = dom (subs (client s)).
Proof.
  intros Hrun Hws.
  destruct (Reconnect_dialed s s' conn Hrun Hws)
    as (r0 & evc & evs & Htr & Hallc & Halls & Hc).
  eexists. split; [exact Htr|].
  assert (Hcalls : calls (client s') = calls (client s)) by (by rewrite Hc).
  assert (Hsubs : subs (client s') = subs (client s)) by (by rewrite Hc).
  rewrite Hcalls, Hsubs. repeat split; try done.
  - intros id call Hid.
    destruct (sent_for_each _ _ _ _ _ Hallc Hid) as (e & He & r & ->).
    exists r. rewrite !elem_of_app. tauto.
  - intros id sub Hid.
    destruct (sent_for_each _ _ _ _ _ Halls Hid) as (e & He & r & ->).
    exists r. rewrite !elem_of_app. tauto.
  - intros name coll Hname. apply elem_of_map_to_list in Hname.
    assert (EvReset coll ∈ map (fun kv : string * Collection => EvReset kv.2)
                             (map_to_list (collections (client s)))).
    { apply list_elem_of_In, in_map_iff. exists (name, coll).
      split; [done|]. by apply list_elem_of_In. }
    rewrite !elem_of_app. tauto.
Qed.

(** *** The dispatcher *)

Lemma dispatch_result s msg :
  msg !! "msg" = Some (JString "result") -> dispatch msg s = on_result msg s.
Proof. intros Hm. unfold dispatch. rewrite Hm. reflexivity. Qed.


(** An [error] field that is not a string stops the dispatcher in the type
    assertion, after the call has left the registry and before it is
    completed. *)
Lemma result_error_not_string s msg id call v :
  msg !! "msg" = Some (JString "result") ->
  msg !! "id" = Some (JString id) ->
  calls (client s) !! id = Some call ->
  msg !! "error" = Some v ->
  (forall text, v <> JString text) ->
  exists why s', dispatch msg s = Panic why s'
    /\ calls (client s') = delete id (calls (client s))
    /\ trace (runtime s') = trace (runtime s).
Proof.
  intros Hm Hid Hcall He Hv. rewrite (dispatch_result _ _ Hm).
  unfold on_result. rewrite Hid. run. rewrite Hcall. run. rewrite He.
  destruct v as [| | |text| |]; try (by eexists _, _); by destruct (Hv text).
Qed.

(** *** Go and Subscribe *)

(** C8: [Go] and [Subscribe] refuse an unbuffered [done] channel with a
    panic and register nothing; given no channel, they allocate a buffered
    one, which becomes the [Done] of the call they return. *)
Theorem done_channel_contract s name args cid :
  (exists s',
     Go name args (Some {| chan_id := cid; chan_cap := 0 |}) s
       = Panic "ddp.rpc: done channel is unbuffered" s'
     /\ calls (client s') = calls (client s)
     /\ subs (client s') = subs (client s))
  /\ (exists s',
     Subscribe name args (Some {| chan_id := cid; chan_cap := 0 |}) s
       = Panic "ddp.rpc: done channel is unbuffered" s'
     /\ calls (client s') = calls (client s)
     /\ subs (client s') = subs (client s))
  /\ (exists call s',
     Go name args None s = Ok call s'
     /\ Done call = {| chan_id := next_chan (runtime s); chan_cap := 10 |}
     /\ next_chan (runtime s') = S (next_chan (runtime s))
     /\ calls (client s') !! ID call = Some call)
  /\ (exists call s',
     Subscribe name args None s = Ok call s'
     /\ Done call = {| chan_id := next_chan (runtime s); chan_cap := 10 |}
     /\ next_chan (runtime s') = S (next_chan (runtime s))
     /\ subs (client s') !! ID call = Some call).
Proof.
  unfold Go, Subscribe, Client_newID, check_done. run.
  destruct (newID (ids (client s))) as [id m]. run.
  repeat split.
  - eexists. split; [reflexivity|]. done.
  - eexists. split; [reflexivity|]. done.
  - unfold Send. simpl. destruct (ws (client s)) as [conn|].
    + destruct (JSON_Send _ _ _) as [w r]. eexists _, _.
      split; [reflexivity|]. simpl. repeat split. apply lookup_insert_eq.
    + eexists _, _. split; [reflexivity|]. simpl. repeat split.
      apply lookup_insert_eq.
  - unfold Send. simpl. destruct (ws (client s)) as [conn|].
    + destruct (JSON_Send _ _ _) as [w r]. eexists _, _.
      split; [reflexivity|]. simpl. repeat split. apply lookup_insert_eq.
    + eexists _, _. split; [reflexivity|]. simpl. repeat split.
      apply lookup_insert_eq.
Qed.

(** *** Collections *)

Lemma dispatch_delta s msg kind op :
  msg !! "msg" = Some (JString kind) ->
  (kind, op) ∈ [("added", Added); ("changed", Changed); ("removed", Removed);
                ("addedBefore", AddedBefore); ("movedBefore", MovedBefore)] ->
  dispatch msg s = on_delta op msg s.
Proof.
  intros Hm Hin. unfold dispatch. rewrite Hm.
  repeat (apply elem_of_cons in Hin as [[= -> ->]|Hin]; [reflexivity|]).
  by apply elem_of_nil in Hin.
Qed.

(** C9, as the code has it: a data-delta event without a [collection]
    field, or with one that is not a string, goes to the no-op sink and
    the directory stays as it is; an event that names a collection missing
    from the directory creates it, registers it under that name and
    delivers the event to it. *)
Theorem delta_on_missing_collection s msg kind op :
  msg !! "msg" = Some (JString kind) ->
  (kind, op) ∈ [("added", Added); ("changed", Changed); ("removed", Removed);
                ("addedBefore", AddedBefore); ("movedBefore", MovedBefore)] ->
  ((forall name, msg !! "collection" <> Some (JString name)) ->
     dispatch msg s =
       Ok tt {| client := client s;
                runtime := set_trace
                  (trace (runtime s) ++ [EvCollection NewMockCollection op msg])
                  (runtime s) |})
  /\ (forall name,
        msg !! "collection" = Some (JString name) ->
        collections (client s) !! name = None ->
        exists s', dispatch msg s = Ok tt s'
          /\ collections (client s') =
               <[name := NewCollection name]> (collections (client s))
          /\ trace (runtime s') =
               trace (runtime s) ++ [EvCollection (NewCollection name) op msg]).
Proof.
  intros Hm Hop. rewrite (dispatch_delta _ _ _ _ Hm Hop).
  unfold on_delta, collectionBy. split.
  - intros Hno. destruct (msg !! "collection") as [v|]; [|reflexivity].
    destruct v as [| | |name| |]; try reflexivity. by destruct (Hno name).
  - intros name Hname Hmiss. rewrite Hname. unfold CollectionByName. run.
    rewrite Hmiss. run. eexists. split; [reflexivity|]. done.
Qed.

(** *** Pings *)

Lemma PingPong_enrolls s conn id t h :
  ws (client s) = Some conn ->
  (JSON_Send (world (runtime s)) conn (NewPing id)).2 = None ->
  exists s', PingPong id t h s = Ok tt s'
    /\ pings (client s') =
         <[id := default [] (pings (client s) !! id)
                   ++ [{| handler := h; timeout := t;
                          timer := next_timer (runtime s) |}]]> (pings (client s))
    /\ ws (client s') = Some conn
    /\ timers (runtime s') =
         <[next_timer (runtime s) :=
             {| armed := true; duration := t; func := PingTimeoutFunc h |}]>
           (timers (runtime s))
    /\ next_timer (runtime s') = S (next_timer (runtime s))
    /\ trace (runtime s') = trace (runtime s) ++ [EvSend conn (NewPing id) None].
Proof.
  intros Hws Hsend. unfold PingPong. unfold bind at 1.
  rewrite (Send_live _ conn) by done. rewrite Hsend. run.
  eexists. split; [reflexivity|]. simpl. by repeat split.
Qed.

Lemma dispatch_pong s msg :
  msg !! "msg" = Some (JString "pong") -> dispatch msg s = on_pong msg s.
Proof. intros Hm. unfold dispatch. rewrite Hm. reflexivity. Qed.

Lemma pong_resolves s msg key p rest :
  msg !! "msg" = Some (JString "pong") ->
  pong_bucket msg key ->
  pings (client s) !! key = Some (p :: rest) ->
  exists s', dispatch msg s = Ok tt s'
    /\ pings (client s') =
         (if Nat.eqb (String.length key) 0 || Nat.ltb 0 (length rest)
          then <[key := rest]> (pings (client s)) else pings (client s))
    /\ ws (client s') = ws (client s)
    /\ timers (runtime s') = alter stopped (timer p) (timers (runtime s))
    /\ next_timer (runtime s') = next_timer (runtime s)
    /\ trace (runtime s') = trace (runtime s) ++ [EvHandler (handler p) None].
Proof.
  intros Hm Hkey Hp. rewrite (dispatch_pong _ _ Hm). unfold on_pong.
  assert (Hk : (match msg !! "id" with
                | Some v => assert_string v
                | None => ret ""
                end) s = Ok key s).
  { destruct Hkey as [->|[-> ->]]; reflexivity. }
  rewrite (bind_Ok _ _ _ _ _ Hk). run. rewrite Hp.
  unfold call_handler. run.
  destruct (Nat.eqb (String.length key) 0 || Nat.ltb 0 (length rest)); run;
    destruct (handler p); run; eexists; (split; [reflexivity|]); done.
Qed.

(** X2: a pong for a bucket that holds no tracker is dropped; the state
    stays as it is. *)
Lemma pong_unknown s msg key :
  msg !! "msg" = Some (JString "pong") ->
  pong_bucket msg key ->
  default [] (pings (client s) !! key) = [] ->
  dispatch msg s = Ok tt s.
Proof.
  intros Hm Hkey Hp. rewrite (dispatch_pong _ _ Hm). unfold on_pong.
  assert (Hk : (match msg !! "id" with
                | Some v => assert_string v
                | None => ret ""
                end) s = Ok key s).
  { destruct Hkey as [->|[-> ->]]; reflexivity. }
  rewrite (bind_Ok _ _ _ _ _ Hk). run.
  destruct (pings (client s) !! key) as [[|p rest]|]; done.
Qed.

(** C6: three anonymous pings followed by three anonymous pongs run the
    three handlers with success, in the order of enrolment, and leave the
    bucket of the empty id empty. *)
Theorem anonymous_pings_fifo s conn t1 t2 t3 h1 h2 h3 m1 m2 m3 :
  ws (client s) = Some conn ->
  (forall w, (JSON_Send w conn (NewPing "")).2 = None) ->
  default [] (pings (client s) !! "") = [] ->
  (forall m, m ∈ [m1; m2; m3] ->
     m !! "msg" = Some (JString "pong") /\ pong_bucket m "") ->
  exists s',
    (PingPong "" t1 h1 ;;; PingPong "" t2 h2 ;;; PingPong "" t3 h3 ;;;
     inboxManager [FromInbox m1; FromInbox m2; FromInbox m3]) s = Ok tt s'
    /\ trace (runtime s') =
         trace (runtime s)
           ++ [EvSend conn (NewPing "") None; EvSend conn (NewPing "") None;
               EvSend conn (NewPing "") None;
               EvHandler h1 None; EvHandler h2 None; EvHandler h3 None]
    /\ pings (client s') !! "" = Some [].
Proof.
  intros Hws Hsend Hempty Hpongs.
  destruct (PingPong_enrolls s conn "" t1 h1)
    as (s1 & R1 & P1 & W1 & _ & _ & Tr1); [done|apply Hsend|].
  destruct (PingPong_enrolls s1 conn "" t2 h2)
    as (s2 & R2 & P2 & W2 & _ & _ & Tr2); [done|apply Hsend|].
  destruct (PingPong_enrolls s2 conn "" t3 h3)
    as (s3 & R3 & P3 & W3 & _ & _ & Tr3); [done|apply Hsend|].
  rewrite P1, lookup_insert_eq in P2. rewrite Hempty in P1, P2.
  rewrite P2, lookup_insert_eq in P3. simpl in P1, P2, P3.
  destruct (Hpongs m1) as [M1 K1]; [by repeat constructor|].
  destruct (Hpongs m2) as [M2 K2]; [by repeat constructor|].
  destruct (Hpongs m3) as [M3 K3]; [by repeat constructor|].
  destruct (pong_resolves s3 m1 "" _ _ M1 K1 ltac:(by rewrite P3, lookup_insert_eq))
    as (s4 & R4 & P4 & _ & _ & _ & Tr4).
  destruct (pong_resolves s4 m2 "" _ _ M2 K2 ltac:(by rewrite P4; simpl; rewrite lookup_insert_eq))
    as (s5 & R5 & P5 & _ & _ & _ & Tr5).
  destruct (pong_resolves s5 m3 "" _ _ M3 K3 ltac:(by rewrite P5; simpl; rewrite lookup_insert_eq))
    as (s6 & R6 & P6 & _ & _ & _ & Tr6).
  exists s6. repeat split.
  - rewrite (bind_Ok _ _ _ _ _ R1), (bind_Ok _ _ _ _ _ R2), (bind_Ok _ _ _ _ _ R3).
    unfold inboxManager. simpl.
    by rewrite (bind_Ok _ _ _ _ _ R4), (bind_Ok _ _ _ _ _ R5), (bind_Ok _ _ _ _ _ R6).
  - rewrite Tr6, Tr5, Tr4, Tr3, Tr2, Tr1. simpl. by rewrite <- !app_assoc.
  - rewrite P6. simpl. by rewrite lookup_insert_eq.
Qed.

(** When its timer expires a ping handler is told of the timeout; the
    client, and with it the bucket that holds the tracker, is not touched. *)
Lemma timeout_keeps_tracker s t d h :
  timers (runtime s) !! t
    = Some {| armed := true; duration := d; func := PingTimeoutFunc h |} ->
  exists s', Fire t s = Ok tt s'
    /\ client s' = client s
    /\ trace (runtime s') =
         trace (runtime s)
           ++ EvHandler h (Some (Errorf "ping timeout"))
              :: match h with PingHandler => [EvGo ReconnectTask] | _ => [] end.
Proof.
  intros Ht. unfold Fire. rewrite Ht. unfold call_handler. run.
  destruct h; run; eexists; (split; [reflexivity|]); simpl; split; try done.
  by rewrite <- app_assoc.
Qed.

(** A pong that takes the last tracker of a named bucket does not store
    the emptied bucket: the tracker is still there for the next pong. *)
Lemma pong_twice s msg key p :
  msg !! "msg" = Some (JString "pong") ->
  msg !! "id" = Some (JString key) ->
  key <> "" ->
  pings (client s) !! key = Some [p] ->
  exists s', (dispatch msg ;;; dispatch msg) s = Ok tt s'
    /\ pings (client s') = pings (client s)
    /\ trace (runtime s') =
         trace (runtime s) ++ [EvHandler (handler p) None; EvHandler (handler p) None].
Proof.
  intros Hm Hid Hkey Hp.
  assert (Hlen : Nat.eqb (String.length key) 0 || Nat.ltb 0 (@length pingTracker []) = false).
  { destruct key; [done|reflexivity]. }
  destruct (pong_resolves s msg key p [] Hm (or_introl Hid) Hp)
    as (s1 & R1 & P1 & _ & _ & _ & Tr1).
  rewrite Hlen in P1.
  destruct (pong_resolves s1 msg key p [] Hm (or_introl Hid) ltac:(by rewrite P1))
    as (s2 & R2 & P2 & _ & _ & _ & Tr2).
  rewrite Hlen in P2.
  exists s2. rewrite (bind_Ok _ _ _ _ _ R1), R2. repeat split.
  - by rewrite P2.
  - rewrite Tr2, Tr1. by rewrite <- app_assoc.
Qed.

(** *** Subscriptions *)

Lemma dispatch_nosub s msg :
  msg !! "msg" = Some (JString "nosub") -> dispatch msg s = on_nosub msg s.
Proof. intros Hm. unfold dispatch. rewrite Hm. reflexivity. Qed.

(** A [nosub] takes the subscription out of the registry and does nothing
    else: no call is completed. *)
Lemma nosub_only_deletes s msg id :
  msg !! "msg" = Some (JString "nosub") ->
  msg !! "id" = Some (JString id) ->
  dispatch msg s =
    Ok tt {| client := set_subs (delete id (subs (client s))) (client s);
             runtime := runtime s |}.
Proof.
  intros Hm Hid. rewrite (dispatch_nosub _ _ Hm). unfold on_nosub.
  rewrite Hid. reflexivity.
Qed.

(** *** Statistics *)

Lemma int64_wrap_add a b : int64_wrap (int64_wrap a + b) = int64_wrap (a + b).
Proof.
  unfold int64_wrap.
  replace ((a + 2 ^ 63) `mod` 2 ^ 64 - 2 ^ 63 + b + 2 ^ 63)
    with ((a + 2 ^ 63) `mod` 2 ^ 64 + b) by lia.
  rewrite Zplus_mod_idemp_l. do 2 f_equal. lia.
Qed.

Lemma int64_wrap_id z : in_int64 z -> int64_wrap z = z.
Proof.
  unfold in_int64, int64_wrap. intros Hz.
  rewrite Z.mod_small by lia. lia.
Qed.

Lemma int64_wrap_range z : in_int64 (int64_wrap z).
Proof.
  unfold in_int64, int64_wrap.
  pose proof (Z.mod_pos_bound (z + 2 ^ 63) (2 ^ 64)). lia.
Qed.

(** X3: a tracker counts every operation, adds up the bytes of the ones
    that returned no error, and counts as errors the ones whose error is
    not [io.EOF]; each counter wraps around as an [int64] does. *)
Theorem Op_all_counts t rs :
  in_int64 (st_ops t) -> in_int64 (st_bytes t) -> in_int64 (st_errors t) ->
  st_ops (Op_all t rs) = int64_wrap (st_ops t + Z.of_nat (length rs))
  /\ st_bytes (Op_all t rs) = int64_wrap (st_bytes t + bytes_moved rs)
  /\ st_errors (Op_all t rs) = int64_wrap (st_errors t + failures rs)
  /\ st_start (Op_all t rs) = st_start t.
Proof.
  revert t. induction rs as [|[n err] rs IH]; intros t Ho Hb He.
  - simpl. rewrite !Z.add_0_r, !int64_wrap_id; done.
  - rewrite length_cons, Nat2Z.inj_succ.
    unfold Op_all. simpl foldl. fold (Op_all (Op t n err).1 rs).
    destruct (IH (Op t n err).1) as (Ho' & Hb' & He' & Hs').
    { destruct err as [[|e]|]; apply int64_wrap_range. }
    { destruct err as [[|e]|]; simpl; done || apply int64_wrap_range. }
    { destruct err as [[|e]|]; simpl; done || apply int64_wrap_range. }
    rewrite Ho', Hb', He', Hs'. clear IH Ho' Hb' He' Hs'.
    destruct err as [[|e]|]; cbn [Op fst snd st_ops st_bytes st_errors st_start
                                   bytes_moved failures foldr];
      rewrite ?int64_wrap_add; repeat split; f_equal;
      fold (failures rs); fold (bytes_moved rs); lia.
Qed.

(** X4: [Reset] hands back the snapshot taken before it and starts the
    counters again from zero: a snapshot taken later counts the operations
    made since the reset and nothing older. *)
Theorem Reset_starts_over t now later rs after_ :
  (StatsTracker_Reset t now later).2 = Snapshot t now
  /\ Snapshot (Op_all (StatsTracker_Reset t now later).1 rs) after_ =
       {| Bytes := int64_wrap (bytes_moved rs);
          Ops := int64_wrap (Z.of_nat (length rs));
          Errors := int64_wrap (failures rs);
          Runtime_ := Since after_ later |}.
Proof.
  split; [reflexivity|].
  destruct (Op_all_counts (StatsTracker_Reset t now later).1 rs)
    as (Ho & Hb & He & Hs); try (simpl; unfold in_int64; lia).
  unfold Snapshot, snap. rewrite Ho, Hb, He, Hs. reflexivity.
Qed.

(** X5: with a clock that does not run backwards, the runtime of a
    snapshot is the time since the tracker was started, and never
    negative. *)
Theorem Snapshot_runtime t now :
  0 <= st_start t <= now -> now < 2 ^ 63 ->
  Runtime_ (Snapshot t now) = now - st_start t
  /\ 0 <= Runtime_ (Snapshot t now).
Proof.
  intros Hs Hn. unfold Snapshot, snap, Since. simpl.
  rewrite int64_wrap_id by (unfold in_int64; lia).
  assert (E1 : (now - st_start t <? 0) = false) by (apply Z.ltb_ge; lia).
  assert (E3 : (now <? st_start t) = false) by (apply Z.ltb_ge; lia).
  rewrite E1, E3, andb_false_r. simpl. lia.
Qed.



(** *** Logging *)

(** X7: a logger that is switched off, and any logger handed an error,
    writes nothing, does not touch the buffer (so it cannot panic, whatever
    the count) and returns the count and the error as they came. *)
Theorem Log_quiet l p n err :
  Active l = false \/ err <> None ->
  Log l p n err = Some ([], (n, err)).
Proof.
  intros [Hoff|Herr]; unfold Log.
  - by rewrite Hoff.
  - destruct (Active l), err; done.
Qed.

Lemma reslice_in_range p limit :
  0 <= limit <= Z.of_nat (length (backing p)) ->
  reslice p limit = Some (take (Z.to_nat limit) (backing p)).
Proof.
  intros Hl. unfold reslice.
  assert ((0 <=? limit) = true) as -> by (apply Z.leb_le; lia).
  assert ((limit <=? Z.of_nat (length (backing p))) = true) as ->
    by (apply Z.leb_le; lia).
  reflexivity.
Qed.

Lemma reslice_out_of_range p limit :
  limit < 0 \/ Z.of_nat (length (backing p)) < limit ->
  reslice p limit = None.
Proof.
  intros Hl. unfold reslice.
  destruct (0 <=? limit) eqn:E1; [|done].
  destruct (limit <=? Z.of_nat (length (backing p))) eqn:E2; [|done].
  apply Z.leb_le in E1, E2. lia.
Qed.

(** X8: an active logger handed a result without error and a count within
    the buffer writes one line and returns the count unchanged.  The line
    carries the first [n] bytes of the buffer, or only the first
    [Truncate] of them when [0 < Truncate < n]; as text, with the three
    dots exactly when it was cut, for [DataText], as a hex dump for every
    other data type. *)
Theorem Log_active l p n :
  Active l = true ->
  0 <= n <= Z.of_nat (length (backing p)) ->
  exists line,
    Log l p n None = Some ([line], (n, None))
    /\ payload line =
         take (Z.to_nat (if (0 <? Truncate l) && (Truncate l <? n)
                          then Truncate l else n)) (backing p)
    /\ Z.of_nat (length (payload line)) <= n
    /\ (0 < Truncate l -> Z.of_nat (length (payload line)) <= Truncate l)
    /\ line = (if dtype l =? DataText
               then Printf_text n (payload line)
                      ((0 <? Truncate l) && (Truncate l <? n))
               else Println_dump (payload line)).
Proof.
  intros Hon Hn. unfold Log. rewrite Hon.
  set (cut := (0 <? Truncate l) && (Truncate l <? n)).
  assert (Hlimit : 0 <= (if cut then Truncate l else n) <= n).
  { subst cut. destruct (0 <? Truncate l) eqn:E1; simpl; [|lia].
    destruct (Truncate l <? n) eqn:E2; [|lia].
    apply Z.ltb_lt in E1, E2. lia. }
  rewrite reslice_in_range by lia.
  assert (Hlen : Z.of_nat (length (take (Z.to_nat (if cut then Truncate l else n))
                                         (backing p)))
                 = (if cut then Truncate l else n)).
  { rewrite length_take. lia. }
  destruct (dtype l =? DataText); eexists; (split; [reflexivity|]); simpl;
    rewrite Hlen; repeat split; try lia.
  - intros HT. subst cut. destruct (0 <? Truncate l) eqn:E1; simpl.
    + destruct (Truncate l <? n) eqn:E2; [lia|]. apply Z.ltb_ge in E2. lia.
    + apply Z.ltb_ge in E1. lia.
  - intros HT. subst cut. destruct (0 <? Truncate l) eqn:E1; simpl.
    + destruct (Truncate l <? n) eqn:E2; [lia|]. apply Z.ltb_ge in E2. lia.
    + apply Z.ltb_ge in E1. lia.
Qed.

(** X9: an active logger handed a result without error panics in the
    slice expression when the count is negative, and when the count is
    beyond the capacity of the buffer unless [Truncate] cuts it back into
    the buffer. *)
Theorem Log_count_out_of_range l p n :
  Active l = true ->
  n < 0 \/ (Z.of_nat (length (backing p)) < n
            /\ (Truncate l <= 0 \/ Z.of_nat (length (backing p)) < Truncate l)) ->
  Log l p n None = None.
Proof.
  intros Hon Hn. unfold Log. rewrite Hon.
  rewrite reslice_out_of_range; [done|].
  destruct (0 <? Truncate l) eqn:E1; simpl.
  - destruct (Truncate l <? n) eqn:E2.
    + apply Z.ltb_lt in E1, E2. lia.
    + apply Z.ltb_ge in E2. lia.
  - apply Z.ltb_ge in E1. lia.
Qed.

(** X10: the text logger of a reader writes the count and at most the
    first 80 bytes read, with the three dots when more were read, and the
    data logger of a writer dumps all the bytes written; both hand back
    the result of the wrapped reader or writer, and both stay silent on an
    error. *)
Theorem default_loggers reader writer p :
  (forall p' n, reader p = (p', n, None) ->
     0 <= n <= Z.of_nat (length (backing p')) ->
     ReaderLogger_Read (NewReaderTextLogger reader) p =
       Some (p', [Printf_text n (take (Z.to_nat (Z.min n 80)) (backing p')) (80 <? n)],
             (n, None)))
  /\ (forall n, writer p = (n, None) ->
     0 <= n <= Z.of_nat (length (backing p)) ->
     WriterLogger_Write (NewWriterDataLogger writer) p =
       Some ([Println_dump (take (Z.to_nat n) (backing p))], (n, None)))
  /\ (forall p' n e, reader p = (p', n, Some e) ->
     ReaderLogger_Read (NewReaderTextLogger reader) p = Some (p', [], (n, Some e)))
  /\ (forall n e, writer p = (n, Some e) ->
     WriterLogger_Write (NewWriterDataLogger writer) p = Some ([], (n, Some e))).
Proof.
  repeat split.
  - intros p' n Hr Hn. unfold ReaderLogger_Read. simpl. rewrite Hr.
    unfold Log. simpl. destruct (80 <? n) eqn:E.
    + apply Z.ltb_lt in E. rewrite reslice_in_range by lia.
      by rewrite Z.min_r by lia.
    + apply Z.ltb_ge in E. rewrite reslice_in_range by lia.
      by rewrite Z.min_l by lia.
  - intros n Hw Hn. unfold WriterLogger_Write. simpl. rewrite Hw.
    unfold Log. simpl. by rewrite reslice_in_range by lia.
  - intros p' n e Hr. unfold ReaderLogger_Read. simpl. by rewrite Hr.
  - intros n e Hw. unfold WriterLogger_Write. simpl. by rewrite Hw.
Qed.

(** *** More of the dispatcher *)

(** X11: a message whose type the client does not know, and an
    "updated", leave the whole state as it is. *)
Theorem unknown_message_ignored s msg m :
  msg !! "msg" = Some (JString m) ->
  m ∉ ["connected"; "failed"; "ping"; "pong"; "nosub"; "ready"; "added";
       "changed"; "removed"; "addedBefore"; "movedBefore"; "result"] ->
  dispatch msg s = Ok tt s.
Proof.
  intros Hm Hout. unfold dispatch. rewrite Hm. simpl.
  unfold bind, ret.
  repeat match goal with
  | |- context [String.eqb m ?k] =>
      destruct (String.eqb_spec m k) as [->|_];
        [by exfalso; apply Hout; repeat constructor|]
  end.
  by destruct (String.eqb m "updated").
Qed.


Lemma dispatch_ping s msg :
  msg !! "msg" = Some (JString "ping") -> dispatch msg s = on_ping msg s.
Proof. intros Hm. unfold dispatch. rewrite Hm. reflexivity. Qed.

(** X13: a "ping" from the server is answered on the socket with one
    "pong" that echoes its id, or carries the empty id when the ping has
    none; the client is not changed.  On a nil socket nothing is sent and
    the state stays as it is. *)
Theorem ping_is_answered s msg key :
  msg !! "msg" = Some (JString "ping") ->
  pong_bucket msg key ->
  (forall conn, ws (client s) = Some conn ->
     exists s' r, dispatch msg s = Ok tt s'
       /\ client s' = client s
       /\ trace (runtime s') = trace (runtime s) ++ [EvSend conn (NewPong key) r])
  /\ (ws (client s) = None -> dispatch msg s = Ok tt s).
Proof.
  intros Hm Hkey. rewrite (dispatch_ping _ _ Hm). unfold on_ping.
  split.
  - intros conn Hws.
    destruct Hkey as [Hid|[Hid ->]]; rewrite Hid;
      unfold bind, assert_string, ret;
      rewrite (Send_live _ conn) by done; by eexists _, _.
  - intros Hws.
    destruct Hkey as [Hid|[Hid ->]]; rewrite Hid;
      unfold bind, assert_string, ret;
      by rewrite Send_nil_socket_eq.
Qed.

Lemma dispatch_connected s msg :
  msg !! "msg" = Some (JString "connected") -> dispatch msg s = on_connected msg s.
Proof. intros Hm. unfold dispatch. rewrite Hm. reflexivity. Qed.

(** X14: "connected" with a session token stores the token, sets the
    protocol version to "1" and starts a heartbeat timer of
    [HeartbeatInterval], which becomes the timer of the client; from then
    on [Session] returns the token and [Close] succeeds. *)
Theorem connected_starts_session s msg tok :
  msg !! "msg" = Some (JString "connected") ->
  msg !! "session" = Some (JString tok) ->
  exists s', dispatch msg s = Ok tt s'
    /\ Session s' = Ok tok s'
    /\ Version s' = Ok "1" s'
    /\ pingTimer (client s') = Some (next_timer (runtime s))
    /\ timers (runtime s') !! next_timer (runtime s)
         = Some {| armed := true; duration := HeartbeatInterval (client s);
                   func := HeartbeatFunc |}
    /\ trace (runtime s') = trace (runtime s)
    /\ ws (client s') = ws (client s)
    /\ exists s'', Close s' = Ok tt s'' /\ ws (client s'') = None.
Proof.
  intros Hm Htok. rewrite (dispatch_connected _ _ Hm).
  unfold on_connected. rewrite Htok. run.
  eexists. split; [reflexivity|]. simpl. repeat split.
  - apply lookup_insert_eq.
  - unfold Close. run.
    destruct (ws (client s)) eqn:Hws; run; eexists; (split; [reflexivity|]);
      simpl; done.
Qed.

(** X15: "connected" without a string [session] stops the dispatcher in
    the type assertion: the version is already "1", but no token is
    stored and no heartbeat timer is started. *)
Theorem connected_without_token s msg :
  msg !! "msg" = Some (JString "connected") ->
  (forall tok, msg !! "session" <> Some (JString tok)) ->
  exists why,
    dispatch msg s =
      Panic why {| client := set_version "1" (client s); runtime := runtime s |}.
Proof.
  intros Hm Hno. rewrite (dispatch_connected _ _ Hm). unfold on_connected.
  destruct (msg !! "session") as [v|]; [|by eexists].
  destruct v as [| | |tok| |]; try by eexists. by destruct (Hno tok).
Qed.

(** X16: a "ping", "pong", "nosub" or "result" whose [id] is present but
    is not a string stops the dispatcher in the type assertion, with the
    state as it was. *)
Theorem id_not_a_string s msg kind v :
  msg !! "msg" = Some (JString kind) ->
  kind ∈ ["ping"; "pong"; "nosub"; "result"] ->
  msg !! "id" = Some v ->
  (forall id, v <> JString id) ->
  exists why, dispatch msg s = Panic why s.
Proof.
  intros Hm Hkind Hid Hv. unfold dispatch. rewrite Hm.
  assert (Hbad : forall A (k : string -> M A),
            exists why, bind (assert_string v) k s = Panic why s).
  { intros A k. destruct v as [| | |id| |]; try by eexists. by destruct (Hv id). }
  repeat (apply elem_of_cons in Hkind as [->|Hkind]);
    [| | | |by apply elem_of_nil in Hkind]; simpl;
    unfold bind at 1, ret at 1.
  - unfold on_ping. rewrite Hid. apply Hbad.
  - unfold on_pong. rewrite Hid. unfold bind at 1.
    destruct v as [| | |id| |]; try by eexists. by destruct (Hv id).
  - unfold on_nosub. rewrite Hid. apply Hbad.
  - unfold on_result. rewrite Hid. apply Hbad.
Qed.

Lemma dispatch_ready s msg :
  msg !! "msg" = Some (JString "ready") -> dispatch msg s = on_ready msg s.
Proof. intros Hm. unfold dispatch. rewrite Hm. reflexivity. Qed.

Lemma forM_ready (ids : list string) s :
  exists s',
    forM (JString <$> ids) (fun v =>
      sub <- assert_string v ;;
      c <- get ;;
      match subs c !! sub with
      | Some call => Call_done call
      | None => ret tt
      end) s = Ok tt s'
    /\ client s' = client s
    /\ timers (runtime s') = timers (runtime s)
    /\ trace (runtime s') =
         trace (runtime s) ++ (EvDone <$> omap (fun id => subs (client s) !! id) ids).
Proof.
  revert s. induction ids as [|id ids IH]; intros s.
  - exists s. simpl. by rewrite app_nil_r.
  - rewrite fmap_cons. cbn [forM].
    destruct (subs (client s) !! id) as [call|] eqn:Hid.
    + erewrite (bind_Ok _ _ s tt
                  {| client := client s;
                     runtime := set_trace (trace (runtime s) ++ [EvDone call])
                                  (runtime s) |}); cycle 1.
      { unfold bind, assert_string, ret, get. by rewrite Hid. }
      match goal with |- context [forM _ _ ?s1] =>
        destruct (IH s1) as (s' & Hrun & Hc & Ht & Htr) end.
      exists s'. rewrite Hrun. simpl in *. rewrite Hid. repeat split; try done.
      rewrite Htr. simpl. by rewrite <- app_assoc.
    + erewrite (bind_Ok _ _ s tt s); cycle 1.
      { unfold bind, assert_string, ret, get. by rewrite Hid. }
      destruct (IH s) as (s' & Hrun & Hc & Ht & Htr).
      exists s'. rewrite Hrun. simpl. by rewrite Hid.
Qed.

Lemma ready_listed_helper s msg (ids : list string) :
  msg !! "msg" = Some (JString "ready") ->
  msg !! "subs" = Some (JArray (JString <$> ids)) ->
  exists s', dispatch msg s = Ok tt s'
    /\ client s' = client s
    /\ trace (runtime s') =
         trace (runtime s) ++ (EvDone <$> omap (fun id => subs (client s) !! id) ids).
Proof.
  intros Hm Hsubs. rewrite (dispatch_ready _ _ Hm). unfold on_ready.
  rewrite Hsubs. destruct (forM_ready ids s) as (s' & Hrun & Hc & _ & Htr).
  by exists s'.
Qed.

(** X17: "ready" completes, in the order of its [subs] list, every listed
    subscription that is registered, skips the ids it does not know, and
    leaves the client, the registry of subscriptions included, as it is. *)
Theorem ready_completes_listed s msg (ids : list string) :
  msg !! "msg" = Some (JString "ready") ->
  msg !! "subs" = Some (JArray (JString <$> ids)) ->
  exists s', dispatch msg s = Ok tt s'
    /\ client s' = client s
    /\ trace (runtime s') =
         trace (runtime s) ++ (EvDone <$> omap (fun id => subs (client s) !! id) ids).
Proof.
  apply ready_listed_helper.
Qed.

Lemma delivered_app ch (a b : list Event) :
  delivered ch (a ++ b) = delivered ch a ++ delivered ch b.
Proof. unfold delivered. by rewrite omap_app. Qed.

(** X18: a synchronous [Sub] whose "ready" arrives returns nil, and the
    subscription stays registered under the id that was minted for it. *)
Theorem Sub_returns_on_ready s subName args msg id m :
  newID (ids (client s)) = (id, m) ->
  msg !! "msg" = Some (JString "ready") ->
  msg !! "subs" = Some (JArray [JString id]) ->
  delivered {| chan_id := next_chan (runtime s); chan_cap := 1 |}
    (trace (runtime s)) = [] ->
  exists s', Sub subName args [FromInbox msg] s = Ok (Some None) s'
    /\ subs (client s') !! id
         = Some (new_Call id subName args
                   {| chan_id := next_chan (runtime s); chan_cap := 1 |}).
Proof.
  intros Hid Hm Hsubs Hfresh.
  unfold Sub, Subscribe, Client_newID, check_done, inboxManager.
  unfold bind at 1, make_chan at 1. unfold bind at 1 2 3, get at 1.
  simpl. rewrite Hid. unfold bind at 1, modify at 1, ret at 1. simpl.
  unfold bind at 1, ret at 1. unfold bind at 1, modify at 1. unfold bind at 1.
  match goal with |- context [Send ?o ?s1] =>
    assert (HS : exists r s2, Send o s1 = Ok r s2
              /\ client s2 = client s1
              /\ delivered {| chan_id := next_chan (runtime s); chan_cap := 1 |}
                   (trace (runtime s2)) = [])
  end.
  { unfold Send. simpl. destruct (ws (client s)).
    - destruct (JSON_Send _ _ _). eexists _, _. split; [reflexivity|].
      simpl. split; [done|]. by rewrite delivered_app, Hfresh.
    - by eexists _, _. }
  destruct HS as (r & s2 & -> & Hc2 & Hd2). unfold ret at 1.
  destruct (ready_listed_helper s2 msg [id] Hm Hsubs) as (s3 & Hrun & Hc3 & Htr3).
  unfold bind at 1. unfold bind at 1. rewrite Hrun. unfold ret at 1.
  simpl in Hc2. exists s3. split.
  - cbn [Done new_Call]. rewrite Htr3, delivered_app, Hd2, Hc2. simpl.
    rewrite lookup_insert_eq. simpl. by rewrite Nat.eqb_refl.
  - rewrite Hc3, Hc2. simpl. apply lookup_insert_eq.
Qed.

Lemma result_registered s msg id call :
  msg !! "msg" = Some (JString "result") ->
  msg !! "id" = Some (JString id) ->
  calls (client s) !! id = Some call ->
  (msg !! "error" = None ->
     dispatch msg s =
       Ok tt {| client := set_calls (delete id (calls (client s))) (client s);
                runtime := set_trace
                  (trace (runtime s)
                     ++ [EvDone (with_Reply (default JNull (msg !! "result")) call)])
                  (runtime s) |})
  /\ (forall text, msg !! "error" = Some (JString text) ->
     dispatch msg s =
       Ok tt {| client := set_calls (delete id (calls (client s))) (client s);
                runtime := set_trace
                  (trace (runtime s) ++ [EvDone (with_Error (Errorf text) call)])
                  (runtime s) |}).
Proof.
  intros Hm Hid Hcall. rewrite (dispatch_result _ _ Hm).
  unfold on_result. rewrite Hid. run. rewrite Hcall. run.
  split; [intros He|intros text He]; by rewrite He.
Qed.

Lemma Go_registers s method args ch id m :
  newID (ids (client s)) = (id, m) ->
  chan_cap ch <> O ->
  exists s', Go method args (Some ch) s = Ok (new_Call id method args ch) s'
    /\ client s' =
         set_calls (<[id := new_Call id method args ch]> (calls (client s)))
           (set_ids m (client s))
    /\ (forall ch', delivered ch' (trace (runtime s'))
                    = delivered ch' (trace (runtime s))).
Proof.
  intros Hid Hcap. unfold Go, Client_newID, check_done. run. rewrite Hid. run.
  destruct (Nat.eqb_spec (chan_cap ch) 0) as [|_]; [done|]. run.
  unfold Send. simpl. destruct (ws (client s)).
  - destruct (JSON_Send _ _ _). eexists. split; [reflexivity|]. simpl.
    split; [done|]. intros ch'. rewrite delivered_app. simpl.
    by rewrite app_nil_r.
  - by eexists.
Qed.

(** X19: a synchronous [Call] whose "result" arrives returns the result
    value and no error, or no value and the error of the message, and the
    id minted for the call has left the registry of calls again. *)
Theorem Call_returns_on_result s method args msg id m :
  newID (ids (client s)) = (id, m) ->
  msg !! "msg" = Some (JString "result") ->
  msg !! "id" = Some (JString id) ->
  delivered {| chan_id := next_chan (runtime s); chan_cap := 1 |}
    (trace (runtime s)) = [] ->
  (msg !! "error" = None ->
     exists s', Call_sync method args [FromInbox msg] s
                  = Ok (Some (default JNull (msg !! "result"), None)) s'
       /\ calls (client s') = delete id (calls (client s)))
  /\ (forall text, msg !! "error" = Some (JString text) ->
     exists s', Call_sync method args [FromInbox msg] s
                  = Ok (Some (JNull, Some (Errorf text))) s'
       /\ calls (client s') = delete id (calls (client s))).
Proof.
  intros Hid Hm Hmid Hfresh.
  set (ch := {| chan_id := next_chan (runtime s); chan_cap := 1 |}) in *.
  set (s1 := {| client := client s;
                runtime := set_next_chan (S (next_chan (runtime s))) (runtime s) |}).
  assert (Hch : make_chan 1 s = Ok ch s1) by reflexivity.
  destruct (Go_registers s1 method args ch id m Hid ltac:(done))
    as (s2 & HGo & Hc2 & Hd2).
  simpl in Hc2.
  destruct (result_registered s2 msg id (new_Call id method args ch) Hm Hmid)
    as [Hok Herr].
  { rewrite Hc2. simpl. apply lookup_insert_eq. }
  unfold Call_sync, inboxManager. cbn [forM].
  rewrite (bind_Ok _ _ _ _ _ Hch). cbv beta.
  rewrite (bind_Ok _ _ _ _ _ HGo). cbv beta.
  split.
  - intros He. unfold bind at 1. unfold bind at 1. rewrite (Hok He).
    unfold ret at 1. eexists. split.
    + f_equal. simpl. rewrite delivered_app, Hd2. simpl.
      fold ch. rewrite Hfresh. simpl. by rewrite Nat.eqb_refl.
    + simpl. rewrite Hc2. simpl. apply delete_insert_eq.
  - intros text He. unfold bind at 1. unfold bind at 1. rewrite (Herr text He).
    unfold ret at 1. eexists. split.
    + f_equal. simpl. rewrite delivered_app, Hd2. simpl.
      fold ch. rewrite Hfresh. simpl. by rewrite Nat.eqb_refl.
    + simpl. rewrite Hc2. simpl. apply delete_insert_eq.
Qed.

(** *** More on collections *)

(** X20: [CollectionByName] is get-or-create: it returns the collection
    registered under the name, or registers a new one; afterwards the
    directory holds what it returned, other names are untouched, and
    asking again, with or without a default, returns the same collection
    and changes nothing.  [CollectionByNameWithDefault] builds the default
    only on a miss. *)
Theorem CollectionByName_get_or_create s name :
  exists coll s', CollectionByName name s = Ok coll s'
    /\ coll = default (NewCollection name) (collections (client s) !! name)
    /\ collections (client s') !! name = Some coll
    /\ (forall other, other <> name ->
          collections (client s') !! other = collections (client s) !! other)
    /\ runtime s' = runtime s
    /\ CollectionByName name s' = Ok coll s'
    /\ (forall mk, CollectionByNameWithDefault name mk s' = Ok coll s')
    /\ (forall mk, collections (client s) !! name = None ->
          exists s2, CollectionByNameWithDefault name mk s = Ok (mk name) s2
            /\ collections (client s2) = <[name := mk name]> (collections (client s))).
Proof.
  unfold CollectionByName, CollectionByNameWithDefault. run.
  destruct (collections (client s) !! name) as [coll|] eqn:Hc; run.
  - exists coll, s. rewrite Hc. repeat split; try done.
  - eexists _, _. split; [reflexivity|]. simpl.
    rewrite lookup_insert_eq. repeat split; try done.
    + intros other Hne. by rewrite lookup_insert_ne.
    + intros mk _. by eexists.
Qed.

(** X21: a data-delta event that names a registered collection is
    delivered to that collection, once, and the client, the directory
    included, stays as it is. *)
Theorem delta_to_registered_collection s msg kind op name coll :
  msg !! "msg" = Some (JString kind) ->
  (kind, op) ∈ [("added", Added); ("changed", Changed); ("removed", Removed);
                ("addedBefore", AddedBefore); ("movedBefore", MovedBefore)] ->
  msg !! "collection" = Some (JString name) ->
  collections (client s) !! name = Some coll ->
  dispatch msg s =
    Ok tt {| client := client s;
             runtime := set_trace (trace (runtime s) ++ [EvCollection coll op msg])
                          (runtime s) |}.
Proof.
  intros Hm Hop Hname Hcoll. rewrite (dispatch_delta _ _ _ _ Hm Hop).
  unfold on_delta, collectionBy, CollectionByName. rewrite Hname. run.
  by rewrite Hcoll.
Qed.

(** *** More on pings *)

(** X22: when the ping cannot be sent, on a nil socket or because the
    write fails, [PingPong] hands the error to the handler and enrols
    nothing: no tracker, no timer.  [Ping] on a nil socket therefore only
    starts a reconnect goroutine. *)
Theorem PingPong_send_failure s id t h :
  (ws (client s) = None ->
     exists s', PingPong id t h s = Ok tt s'
       /\ client s' = client s
       /\ timers (runtime s') = timers (runtime s)
       /\ trace (runtime s') =
            trace (runtime s)
              ++ EvHandler h (Some (Errorf "Tried to send message on a nil socket"))
                 :: match h with PingHandler => [EvGo ReconnectTask] | _ => [] end)
  /\ (forall conn e,
        ws (client s) = Some conn ->
        (JSON_Send (world (runtime s)) conn (NewPing id)).2 = Some e ->
        exists s', PingPong id t h s = Ok tt s'
          /\ client s' = client s
          /\ timers (runtime s') = timers (runtime s)
          /\ trace (runtime s') =
               trace (runtime s)
                 ++ EvSend conn (NewPing id) (Some e) :: EvHandler h (Some e)
                    :: match h with PingHandler => [EvGo ReconnectTask] | _ => [] end)
  /\ (ws (client s) = None ->
        exists s', Ping s = Ok tt s'
          /\ pings (client s') = pings (client s)
          /\ timers (runtime s') = timers (runtime s)
          /\ trace (runtime s') =
               trace (runtime s)
                 ++ [EvHandler PingHandler
                       (Some (Errorf "Tried to send message on a nil socket"));
                     EvGo ReconnectTask]).
Proof.
  split; [|split].
  - intros Hws. unfold PingPong. unfold bind at 1.
    rewrite Send_nil_socket_eq by done. unfold call_handler. run.
    destruct h; run; eexists; (split; [reflexivity|]); simpl;
      repeat split; by rewrite <- ?app_assoc.
  - intros conn e Hws He. unfold PingPong. unfold bind at 1.
    rewrite (Send_live _ conn) by done. rewrite He. unfold call_handler. run.
    destruct h; run; eexists; (split; [reflexivity|]); simpl;
      repeat split; by rewrite <- ?app_assoc.
  - intros Hws. unfold Ping, Client_newID. run.
    destruct (newID (ids (client s))) as [id' m]. run.
    unfold PingPong. unfold bind at 1. rewrite Send_nil_socket_eq by done.
    unfold call_handler. run. eexists. split; [reflexivity|]. simpl.
    repeat split. by rewrite <- app_assoc.
Qed.

(** X23: when the heartbeat timer expires on a live socket, the client
    sends a ping with a fresh id, enrols it with [HeartbeatTimeout] and
    the handler of [Ping], and arms its heartbeat timer again for
    [HeartbeatInterval]; on a nil socket the expiry does nothing, and no
    timer is armed again. *)
Theorem heartbeat_expiry s t d :
  timers (runtime s) !! t
    = Some {| armed := true; duration := d; func := HeartbeatFunc |} ->
  (ws (client s) = None ->
     exists s', Fire t s = Ok tt s'
       /\ client s' = client s
       /\ trace (runtime s') = trace (runtime s)
       /\ timers (runtime s') =
            <[t := {| armed := false; duration := d; func := HeartbeatFunc |}]>
              (timers (runtime s)))
  /\ (forall conn pt id m,
        ws (client s) = Some conn ->
        pingTimer (client s) = Some pt ->
        newID (ids (client s)) = (id, m) ->
        (JSON_Send (world (runtime s)) conn (NewPing id)).2 = None ->
        exists s', Fire t s = Ok tt s'
          /\ trace (runtime s') = trace (runtime s) ++ [EvSend conn (NewPing id) None]
          /\ pings (client s') =
               <[id := default [] (pings (client s) !! id)
                         ++ [{| handler := PingHandler;
                                timeout := HeartbeatTimeout (client s);
                                timer := next_timer (runtime s) |}]]>
                 (pings (client s))
          /\ timers (runtime s') =
               alter (fun tm => {| armed := true;
                                   duration := HeartbeatInterval (client s);
                                   func := func tm |}) pt
                 (<[next_timer (runtime s) :=
                      {| armed := true; duration := HeartbeatTimeout (client s);
                         func := PingTimeoutFunc PingHandler |}]>
                    (<[t := {| armed := false; duration := d;
                               func := HeartbeatFunc |}]> (timers (runtime s))))).
Proof.
  intros Ht. split.
  - intros Hws. unfold Fire. rewrite Ht. run. rewrite Hws.
    eexists. split; [reflexivity|]. simpl. done.
  - intros conn pt id m Hws Hpt Hid Hsend. unfold Fire. rewrite Ht. run.
    rewrite Hws. unfold Ping, Client_newID. run. rewrite Hid. run.
    unfold PingPong. unfold bind at 1.
    erewrite (Send_live _ conn) by (simpl; done). simpl.
    rewrite Hsend. run. rewrite Hpt. run.
    eexists. split; [reflexivity|]. simpl. done.
Qed.

(** *** More on Reconnect *)

Lemma Reconnect_not_dialed s s' :
  Reconnect s = Ok tt s' ->
  ws (client s') = None ->
  client s' =
    set_ws None (set_reconnects (int64_wrap (reconnects (client s) + 1)) (client s))
  /\ timers (runtime s') !! next_timer (runtime s)
       = Some {| armed := true; duration := ReconnectInterval (client s);
                 func := ReconnectFunc |}
  /\ next_timer (runtime s') = S (next_timer (runtime s))
  /\ trace (runtime s') =
       trace (runtime s)
         ++ match ws (client s) with Some old => [EvWsClose old] | None => [] end.
Proof.
  intros Hrun Hws. unfold Reconnect in Hrun.
  unfold bind at 1 in Hrun.
  destruct (Close s) as [[] s1| |] eqn:HC; try discriminate.
  assert (Hnt : next_timer (runtime s1) = next_timer (runtime s)).
  { revert HC. unfold Close. run. destruct (pingTimer (client s)); [|done]. run.
    destruct (ws (client s)); run; by intros [= <-]. }
  apply Close_inv in HC as (t & Ht & Hc1 & Hw1 & Htr1).
  unfold bind at 1 in Hrun. unfold modify at 1 in Hrun.
  unfold bind at 1 in Hrun. unfold get at 1 in Hrun.
  unfold bind at 1 in Hrun. unfold dial at 1 in Hrun. simpl in Hrun.
  destruct (Dial _ _ _) as [w [newc|err]].
  - exfalso. revert Hrun.
    unfold bind at 1, start at 1. unfold bind at 1.
    unfold modify at 1. unfold bind at 1.
    unfold emit at 1, modify_rt at 1. unfold bind at 1.
    rewrite (Send_live _ newc) by done. unfold ret at 1.
    match goal with |- (_ ?s2 = _) -> _ => set (st2 := s2) end.
    destruct (forM_Send
                (fun kv : string * Call =>
                   NewMethod (ID kv.2) (ServiceMethod kv.2) (Args kv.2))
                (map_to_list (calls (client s1))) st2 newc)
      as (s3 & evc & Hrc & Hc3 & _); [done|].
    unfold bind at 1. rewrite Hrc.
    destruct (forM_Send
                (fun kv : string * Call =>
                   NewSub (ID kv.2) (ServiceMethod kv.2) (Args kv.2))
                (map_to_list (subs (client s1))) s3 newc)
      as (s4 & evs & Hrs & Hc4 & _); [by rewrite Hc3|].
    unfold bind at 1. rewrite Hrs.
    destruct (forM_Reset (fun kv : string * Collection => kv.2)
                (map_to_list (collections (client s1))) s4)
      as (s5 & Hrr & Hc5 & _).
    rewrite Hrr. intros [= <-].
    rewrite Hc5, Hc4, Hc3 in Hws. discriminate.
  - cbv [bind AfterFunc ret] in Hrun. injection Hrun as <-. simpl.
    rewrite Hc1, Hnt. simpl. rewrite lookup_insert_eq. repeat split.
    by rewrite Htr1.
Qed.

(** X24: when the dial of [Reconnect] fails, the session stays closed,
    nothing is sent, and one timer is armed that will run [Reconnect]
    again after [ReconnectInterval]. *)
Theorem Reconnect_dial_failure s s' :
  Reconnect s = Ok tt s' ->
  ws (client s') = None ->
  timers (runtime s') !! next_timer (runtime s)
    = Some {| armed := true; duration := ReconnectInterval (client s);
              func := ReconnectFunc |}
  /\ next_timer (runtime s') = S (next_timer (runtime s))
  /\ trace (runtime s') =
       trace (runtime s)
         ++ match ws (client s) with Some old => [EvWsClose old] | None => [] end
  /\ Fire (next_timer (runtime s)) s' =
       Reconnect
         {| client := client s';
            runtime := set_timers
              (<[next_timer (runtime s) :=
                   {| armed := false; duration := ReconnectInterval (client s);
                      func := ReconnectFunc |}]> (timers (runtime s')))
              (runtime s') |}.
Proof.
  intros Hrun Hws.
  destruct (Reconnect_not_dialed s s' Hrun Hws) as (Hc & Ht & Hn & Htr).
  repeat split; try done.
  unfold Fire. rewrite Ht. reflexivity.
Qed.

(** X25: a [Reconnect] that returns, whether its dial succeeded or not,
    has increased the reconnect counter by one and has left the session
    token, both registries, the pings and the directory as they were;
    [ResetStats] sets the counter back to zero and touches nothing
    else. *)
Theorem Reconnect_is_counted s s' :
  Reconnect s = Ok tt s' ->
  reconnects (client s') = int64_wrap (reconnects (client s) + 1)
  /\ session (client s') = session (client s)
  /\ calls (client s') = calls (client s)
  /\ subs (client s') = subs (client s)
  /\ pings (client s') = pings (client s)
  /\ collections (client s') = collections (client s)
  /\ pingTimer (client s') = pingTimer (client s)
  /\ ResetStats s' =
       Ok tt {| client := set_reconnects 0 (client s'); runtime := runtime s' |}.
Proof.
  intros Hrun. destruct (ws (client s')) as [conn|] eqn:Hws.
  - destruct (Reconnect_dialed s s' conn Hrun Hws) as (? & ? & ? & _ & _ & _ & Hc).
    split_and!; try (by rewrite Hc). reflexivity.
  - destruct (Reconnect_not_dialed s s' Hrun Hws) as (Hc & _).
    split_and!; try (by rewrite Hc). reflexivity.
Qed.

(** X26: a call made with [Go] while the socket is nil is registered
    although nothing can be sent, and the next [Reconnect] that dials a
    transport sends it there. *)
Theorem offline_call_is_sent_on_reconnect s method args call s1 s2 conn :
  ws (client s) = None ->
  Go method args None s = Ok call s1 ->
  Reconnect s1 = Ok tt s2 ->
  ws (client s2) = Some conn ->
  trace (runtime s1) = trace (runtime s)
  /\ calls (client s1) !! ID call = Some call
  /\ exists evs r,
       trace (runtime s2) = trace (runtime s1) ++ evs
       /\ EvSend conn (NewMethod (ID call) method args) r ∈ evs.
Proof.
  intros Hws HGo Hrun Hws2.
  assert (Hs1 : trace (runtime s1) = trace (runtime s)
                /\ calls (client s1) !! ID call = Some call
                /\ ServiceMethod call = method /\ Args call = args).
  { revert HGo. unfold Go, Client_newID, check_done. run.
    destruct (newID (ids (client s))) as [id m]. run.
    unfold Send. simpl. rewrite Hws. intros [= <- <-]. simpl.
    by rewrite lookup_insert_eq. }
  destruct Hs1 as (Htr & Hreg & Hmeth & Hargs). split; [done|]. split; [done|].
  destruct (Reconnect_dialed s1 s2 conn Hrun Hws2)
    as (r0 & evc & evs & Htr2 & Hallc & _ & _).
  destruct (sent_for_each _ _ _ _ _ Hallc Hreg) as (e & He & r & ->).
  simpl in He. rewrite Hmeth, Hargs in He.
  eexists _, r. split; [exact Htr2|]. rewrite !elem_of_app. tauto.
Qed.

(** *** The inbox worker *)

Lemma rearm_rearmed d (t : nat) (m : gmap nat Timer) :
  alter (rearmed d) t (alter (rearmed d) t m) = alter (rearmed d) t m.
Proof.
  apply alter_id. intros tm. rewrite lookup_alter_eq.
  destruct (m !! t) as [[]|]; simpl; [|done]. by intros [= <-].
Qed.

Lemma Timer_Reset_rearmed t d s :
  Timer_Reset t d s =
    Ok tt {| client := client s;
             runtime := set_timers (alter (rearmed d) t (timers (runtime s)))
                          (runtime s) |}.
Proof. reflexivity. Qed.

(** The state the loop leaves after it has read the frames [good]. *)
Lemma inboxWorker_loop_prefix (good : list (option Message)) tail s :
  exists s1,
    s1 = match pingTimer (client s), good with
         | Some t, _ :: _ =>
             {| client := client s;
                runtime := set_timers
                  (alter (rearmed (HeartbeatInterval (client s))) t
                     (timers (runtime s))) (runtime s) |}
         | _, _ => s
         end
    /\ forall items left,
         (forall st, inboxWorker_loop tail st = Ok (items, left) st) ->
         inboxWorker_loop ((decoded <$> good) ++ tail) s =
           Ok ((FromInbox <$> omap id good) ++ items, left) s1.
Proof.
  revert s. induction good as [|o good IH]; intros s.
  - exists s. split; [by destruct (pingTimer (client s))|].
    intros items left Htail. simpl. apply Htail.
  - eexists. split; [reflexivity|]. intros items left Htail.
    rewrite fmap_cons. simpl app.
    destruct (pingTimer (client s)) as [t|] eqn:Ht.
    + set (s0 := {| client := client s;
                    runtime := set_timers
                      (alter (rearmed (HeartbeatInterval (client s))) t
                         (timers (runtime s))) (runtime s) |}).
      destruct (IH s0) as (s1 & Hs1 & Hloop).
      specialize (Hloop items left Htail).
      assert (Hs1' : s1 = s0).
      { rewrite Hs1. subst s0. simpl. rewrite Ht.
        destruct good; [done|]. by rewrite rearm_rearmed. }
      rewrite Hs1' in Hloop.
      destruct o as [msg|]; simpl; unfold bind at 1 2, get at 1; rewrite Ht;
        rewrite Timer_Reset_rearmed; fold s0.
      * unfold bind at 1. rewrite Hloop. reflexivity.
      * exact Hloop.
    + destruct (IH s) as (s1 & Hs1 & Hloop).
      specialize (Hloop items left Htail).
      rewrite Ht in Hs1. subst s1.
      destruct o as [msg|]; simpl; unfold bind at 1 2, get at 1; rewrite Ht;
        unfold ret at 1.
      * unfold bind at 1. rewrite Hloop. reflexivity.
      * exact Hloop.
Qed.

(** X27: while the socket delivers frames without error, the worker puts
    every decoded object on the inbox, in the order of arrival, drops the
    nil frames, and arms the heartbeat timer again at each frame; it
    touches nothing else and stays in its loop. *)
Theorem inboxWorker_forwards (good : list (option Message)) s :
  inboxWorker (decoded <$> good) s =
    Ok (FromInbox <$> omap id good)
       match pingTimer (client s), good with
       | Some t, _ :: _ =>
           {| client := client s;
              runtime := set_timers
                (alter (rearmed (HeartbeatInterval (client s))) t
                   (timers (runtime s))) (runtime s) |}
       | _, _ => s
       end.
Proof.
  destruct (inboxWorker_loop_prefix good [] s) as (s1 & -> & Hloop).
  specialize (Hloop [] false (fun st => eq_refl)).
  rewrite !app_nil_r in Hloop.
  unfold inboxWorker. unfold bind at 1. rewrite Hloop. reflexivity.
Qed.

(** X28: when a read fails on a session whose heartbeat timer exists, the
    worker has forwarded the objects read before, publishes the error on
    the error channel unless it is [io.EOF], reads no further frame,
    closes the transport, and arms one timer that will run [Reconnect]
    after [ReconnectInterval]; the registries stay as they were. *)
Theorem inboxWorker_exit (good : list (option Message)) ending errs rest s t e :
  (ending, errs) ∈ [(FrameEOF, []); (FrameError e, [FromErrors e])] ->
  pingTimer (client s) = Some t ->
  exists s',
    inboxWorker ((decoded <$> good) ++ ending :: rest) s =
      Ok ((FromInbox <$> omap id good) ++ errs) s'
    /\ client s' = set_ws None (client s)
    /\ trace (runtime s') =
         trace (runtime s)
           ++ match ws (client s) with Some conn => [EvWsClose conn] | None => [] end
    /\ timers (runtime s') !! next_timer (runtime s)
         = Some {| armed := true; duration := ReconnectInterval (client s);
                   func := ReconnectFunc |}
    /\ next_timer (runtime s') = S (next_timer (runtime s)).
Proof.
  intros Hend Ht.
  destruct (inboxWorker_loop_prefix good (ending :: rest) s) as (s1 & Hs1 & Hloop).
  assert (Htail : forall st, inboxWorker_loop (ending :: rest) st = Ok (errs, true) st).
  { apply elem_of_cons in Hend as [[= -> ->]|Hend]; [done|].
    apply list_elem_of_singleton in Hend as [= -> ->]. done. }
  specialize (Hloop errs true Htail).
  unfold inboxWorker. unfold bind at 1. rewrite Hloop. cbn [snd fst].
  assert (H1 : client s1 = client s /\ trace (runtime s1) = trace (runtime s)
               /\ next_timer (runtime s1) = next_timer (runtime s)).
  { rewrite Hs1, Ht. by destruct good. }
  destruct H1 as (Hc1 & Htr1 & Hn1).
  unfold Close. run. rewrite Hc1, Ht. run.
  destruct (ws (client s)) as [conn|] eqn:Hws; run;
    eexists; (split; [reflexivity|]); simpl;
    rewrite ?Hc1, ?Htr1, ?Hn1, ?lookup_insert_eq, ?app_nil_r; repeat split.
  destruct (client s); simpl in *; by subst.
Qed.

(** *** Construction *)

(** X29: [NewClient] returns the dial error and no client when the dial
    fails; otherwise the client holds the dialed connection, has empty
    registries and no heartbeat timer yet, carries the default intervals
    (45s, 15s, 5s), and its first and only write so far is the "connect"
    message. *)
Theorem NewClient_outcome w url origin :
  match Dial w url origin with
  | (_, inr err) => NewClient w url origin = inl err
  | (_, inl conn) =>
      exists s r,
        NewClient w url origin = inr (Ok tt s)
        /\ ws (client s) = Some conn
        /\ calls (client s) = ∅ /\ subs (client s) = ∅
        /\ pings (client s) = ∅ /\ collections (client s) = ∅
        /\ pingTimer (client s) = None
        /\ (HeartbeatInterval (client s), HeartbeatTimeout (client s),
            ReconnectInterval (client s)) = (45 * Second, 15 * Second, 5 * Second)
        /\ trace (runtime s) =
             [EvGo inboxManagerTask; EvGo (inboxWorkerTask conn);
              EvSend conn NewConnect r]
  end.
Proof.
  unfold NewClient. destruct (Dial w url origin) as [w' [conn|err]]; [|done].
  unfold start. run. unfold Send. simpl.
  destruct (JSON_Send w' conn NewConnect) as [w2 r].
  eexists _, r. split; [reflexivity|]. simpl. done.
Qed.

End Properties.


(** ** Scenarios on the sample session *)

Section Scenarios.
#[local] Existing Instance sample_env.

(** C1: the server answers a synchronous [Sub] with
    [{msg:"nosub", id:"s1", error:"denied"}].  The dispatcher takes "s1"
    out of the registry, but it never completes the subscription: nothing
    is signalled on its [Done] channel, no error is stored, and the caller
    stays blocked on the receive. *)
Theorem nosub_leaves_Sub_blocked :
  exists s',
    Sub "stream" [] [FromInbox msg_nosub] live_session = Ok None s'
    /\ subs (client s') !! "s1" = None
    /\ delivered {| chan_id := 0; chan_cap := 1 |} (trace (runtime s')) = [].
Proof.
  eexists. split; [vm_compute; reflexivity|]. split; vm_compute; reflexivity.
Qed.

(** C2: a ping "p1" is enrolled and no pong arrives.  The timer expires
    and the handler is told of the timeout, but the tracker is still in
    the bucket of "p1" afterwards. *)
Theorem timed_out_ping_stays_enrolled :
  exists s',
    (PingPong "p1" (15 * Second) (UserHandler 1) ;;; Fire 1) live_session = Ok tt s'
    /\ handler_calls (UserHandler 1) (trace (runtime s'))
         = [Some (Errorf "ping timeout")]
    /\ pings (client s') !! "p1"
         = Some [{| handler := UserHandler 1; timeout := 15 * Second; timer := 1 |}].
Proof.
  eexists. split; [vm_compute; reflexivity|]. split; vm_compute; reflexivity.
Qed.

(** C3: a ping "p1" is enrolled and the server sends two pongs for "p1":
    the handler runs with success twice.  Likewise a pong that arrives
    after the timeout runs the handler a second time, with success after
    the timeout error. *)
Theorem second_pong_runs_handler_again :
  (exists s',
     (PingPong "p1" (15 * Second) (UserHandler 1) ;;;
      inboxManager [FromInbox msg_pong_p1; FromInbox msg_pong_p1]) live_session
       = Ok tt s'
     /\ handler_calls (UserHandler 1) (trace (runtime s')) = [None; None])
  /\ (exists s',
     (PingPong "p1" (15 * Second) (UserHandler 1) ;;; Fire 1 ;;;
      inboxManager [FromInbox msg_pong_p1]) live_session = Ok tt s'
     /\ handler_calls (UserHandler 1) (trace (runtime s'))
          = [Some (Errorf "ping timeout"); None]).
Proof.
  split; eexists; (split; [vm_compute; reflexivity|]); vm_compute; reflexivity.
Qed.

(** C7: the session is closed before the server has answered "connected"
    (no heartbeat timer yet): [Close] stops at the nil timer, the
    transport is neither closed nor forgotten. *)
Theorem Close_before_connected_panics :
  pingTimer (client fresh_session) = None
  /\ ws (client fresh_session) = Some 1%nat
  /\ Close fresh_session = Panic nil_deref fresh_session.
Proof. repeat split; vm_compute; reflexivity. Qed.

(** C9, as stated, fails: an "added" event for the collection "c", which
    the directory does not hold, puts "c" into the directory and is
    delivered to the new collection, not to the no-op sink. *)
Lemma unknown_collection_is_registered :
  exists s',
    dispatch msg_added_c live_session = Ok tt s'
    /\ collections (client live_session) !! "c" = None
    /\ collections (client s') !! "c" = Some (NewCollection "c")
    /\ collections (client s') <> collections (client live_session)
    /\ last (trace (runtime s'))
         = Some (EvCollection (NewCollection "c") Added msg_added_c).
Proof.
  eexists. split; [vm_compute; reflexivity|].
  assert (Hc : collections (client (after (dispatch msg_added_c) live_session)) !! "c"
               = Some (NewCollection "c")) by (vm_compute; reflexivity).
  assert (Hn : collections (client live_session) !! "c" = None)
    by (vm_compute; reflexivity).
  repeat split; try (vm_compute; reflexivity).
  intros Heq. change (collections (client (after (dispatch msg_added_c) live_session))
                      = collections (client live_session)) in Heq.
  rewrite Heq, Hn in Hc. discriminate.
Qed.

Lemma delta_on_missing_collection_sample :
  dispatch msg_added_nowhere live_session =
    Ok tt {| client := client live_session;
             runtime := set_trace
               (trace (runtime live_session)
                  ++ [EvCollection NewMockCollection Added msg_added_nowhere])
               (runtime live_session) |}
  /\ exists s', dispatch msg_added_c live_session = Ok tt s'
       /\ collections (client s') =
            <["c" := NewCollection "c"]> (collections (client live_session))
       /\ trace (runtime s') =
            trace (runtime live_session)
              ++ [EvCollection (NewCollection "c") Added msg_added_c].
Proof.
  split.
  - apply (delta_on_missing_collection live_session msg_added_nowhere "added" Added).
    + vm_compute; reflexivity.
    + repeat constructor.
    + intros name. vm_compute. discriminate.
  - apply (delta_on_missing_collection live_session msg_added_c "added" Added).
    + vm_compute; reflexivity.
    + repeat constructor.
    + vm_compute; reflexivity.
    + vm_compute; reflexivity.
Defined.

Lemma Send_nil_socket_sample :
  Send (NewPing "x") closed_session
    = Ok (Some (Errorf "Tried to send message on a nil socket")) closed_session.
Proof. apply Send_nil_socket. vm_compute; reflexivity. Defined.


Lemma Reconnect_replays_sample :
  exists evs,
    trace (runtime resumed_session) = trace (runtime busy_session) ++ evs
    /\ (forall id call, calls (client busy_session) !! id = Some call ->
          exists r, EvSend 2%nat
                      (NewMethod (ID call) (ServiceMethod call) (Args call)) r ∈ evs)
    /\ (forall id sub, subs (client busy_session) !! id = Some sub ->
          exists r, EvSend 2%nat
                      (NewSub (ID sub) (ServiceMethod sub) (Args sub)) r ∈ evs)
    /\ (forall name coll, collections (client busy_session) !! name = Some coll ->
          EvReset coll ∈ evs)
    /\ calls (client resumed_session) = calls (client busy_session)
    /\ subs (client resumed_session) = subs (client busy_session)
    /\ dom (calls (client resumed_session)) = dom (calls (client busy_session))
    /\ dom (subs (client resumed_session)) = dom (subs (client busy_session)).
Proof.
  apply (Reconnect_replays busy_session resumed_session 2%nat).
  - vm_compute; reflexivity.
  - vm_compute; reflexivity.
Defined.

Lemma anonymous_pings_fifo_sample :
  exists s',
    (PingPong "" (15 * Second) (UserHandler 1) ;;;
     PingPong "" (15 * Second) (UserHandler 2) ;;;
     PingPong "" (15 * Second) (UserHandler 3) ;;;
     inboxManager [FromInbox msg_pong_anon; FromInbox msg_pong_empty;
                   FromInbox msg_pong_anon]) live_session = Ok tt s'
    /\ trace (runtime s') =
         trace (runtime live_session)
           ++ [EvSend 1%nat (NewPing "") None; EvSend 1%nat (NewPing "") None;
               EvSend 1%nat (NewPing "") None;
               EvHandler (UserHandler 1) None; EvHandler (UserHandler 2) None;
               EvHandler (UserHandler 3) None]
    /\ pings (client s') !! "" = Some [].
Proof.
  apply (anonymous_pings_fifo live_session 1%nat).
  - vm_compute; reflexivity.
  - intros w. reflexivity.
  - vm_compute; reflexivity.
  - intros m Hm.
    apply elem_of_cons in Hm as [->|Hm]; [|apply elem_of_cons in Hm as [->|Hm]];
      [| |apply list_elem_of_singleton in Hm as ->].
    + split; [vm_compute; reflexivity|]. right. split; vm_compute; reflexivity.
    + split; [vm_compute; reflexivity|]. left. vm_compute; reflexivity.
    + split; [vm_compute; reflexivity|]. right. split; vm_compute; reflexivity.
Defined.


Lemma pong_unknown_sample : dispatch msg_pong_p1 live_session = Ok tt live_session.
Proof.
  apply (pong_unknown live_session msg_pong_p1 "p1").
  - vm_compute; reflexivity.
  - left. vm_compute; reflexivity.
  - vm_compute; reflexivity.
Defined.

(** *** Further scenarios *)

Lemma Op_all_counts_sample :
  Snapshot (Op_all (NewStatsTracker 0) sample_ops) 100 =
    {| Bytes := 15; Ops := 4; Errors := 1; Runtime_ := 100 |}.
Proof.
  destruct (Op_all_counts (NewStatsTracker 0) sample_ops) as (Ho & Hb & He & Hs);
    try (unfold in_int64; simpl; lia).
  unfold Snapshot, snap. rewrite Ho, Hb, He, Hs. vm_compute. reflexivity.
Defined.

Lemma Snapshot_runtime_sample :
  Runtime_ (Snapshot (NewStatsTracker 5) 100) = 100 - st_start (NewStatsTracker 5)
  /\ 0 <= Runtime_ (Snapshot (NewStatsTracker 5) 100).
Proof. apply (Snapshot_runtime (NewStatsTracker 5) 100); simpl; lia. Defined.

Lemma Log_quiet_sample :
  Log short_text_logger sample_buffer 99 (Some EOF) = Some ([], (99, Some EOF)).
Proof. apply Log_quiet. right. discriminate. Defined.

Lemma Log_active_sample :
  exists line,
    Log short_text_logger sample_buffer 5 None = Some ([line], (5, None))
    /\ line = Printf_text 5 [Byte.x68; Byte.x65; Byte.x6c] true.
Proof.
  destruct (Log_active short_text_logger sample_buffer 5)
    as (line & HL & Hp & _ & _ & Hline).
  - reflexivity.
  - simpl. lia.
  - exists line. split; [exact HL|]. rewrite Hline, Hp. vm_compute. reflexivity.
Defined.

Lemma Log_count_out_of_range_sample :
  Log short_text_logger sample_buffer (-1) None = None.
Proof. apply Log_count_out_of_range; [reflexivity|]. left. lia. Defined.

Lemma unknown_message_ignored_sample :
  dispatch msg_updated live_session = Ok tt live_session.
Proof.
  apply (unknown_message_ignored live_session msg_updated "updated").
  - vm_compute. reflexivity.
  - intros Hin.
    repeat (apply elem_of_cons in Hin as [Heq|Hin]; [discriminate|]).
    by apply elem_of_nil in Hin.
Defined.


Lemma ping_is_answered_sample :
  exists s' r, dispatch msg_ping_7 live_session = Ok tt s'
    /\ client s' = client live_session
    /\ trace (runtime s') =
         trace (runtime live_session) ++ [EvSend 1%nat (NewPong "7") r].
Proof.
  destruct (ping_is_answered live_session msg_ping_7 "7") as [Hlive _].
  - vm_compute. reflexivity.
  - left. vm_compute. reflexivity.
  - apply Hlive. vm_compute. reflexivity.
Defined.

Lemma connected_starts_session_sample :
  exists s', dispatch msg_connected fresh_session = Ok tt s'
    /\ Session s' = Ok "tok" s'
    /\ Version s' = Ok "1" s'
    /\ pingTimer (client s') = Some O
    /\ exists s'', Close s' = Ok tt s'' /\ ws (client s'') = None.
Proof.
  destruct (connected_starts_session fresh_session msg_connected "tok")
    as (s' & Hrun & Hs & Hv & Hpt & _ & _ & _ & Hclose).
  - vm_compute. reflexivity.
  - vm_compute. reflexivity.
  - exists s'. repeat split; done.
Defined.

Lemma connected_without_token_sample :
  exists why,
    dispatch msg_connected_bare fresh_session =
      Panic why {| client := set_version "1" (client fresh_session);
                   runtime := runtime fresh_session |}.
Proof.
  apply (connected_without_token fresh_session msg_connected_bare).
  - vm_compute. reflexivity.
  - intros tok. vm_compute. discriminate.
Defined.

Lemma id_not_a_string_sample :
  exists why, dispatch msg_pong_number live_session = Panic why live_session.
Proof.
  apply (id_not_a_string live_session msg_pong_number "pong" (JNumber 7)).
  - vm_compute. reflexivity.
  - repeat constructor.
  - vm_compute. reflexivity.
  - intros id. discriminate.
Defined.

Lemma ready_completes_listed_sample :
  exists s', dispatch msg_ready_s2_zz busy_session = Ok tt s'
    /\ client s' = client busy_session
    /\ trace (runtime s') = trace (runtime busy_session) ++ [EvDone stream_call].
Proof.
  destruct (ready_completes_listed busy_session msg_ready_s2_zz ["s2"; "zz"])
    as (s' & Hrun & Hc & Htr).
  - vm_compute. reflexivity.
  - vm_compute. reflexivity.
  - exists s'. split; [done|]. split; [done|]. rewrite Htr. f_equal.
Defined.

Lemma Sub_returns_on_ready_sample :
  exists s', Sub "stream" [] [FromInbox msg_ready_s1] live_session = Ok (Some None) s'
    /\ subs (client s') !! "s1"
         = Some (new_Call "s1" "stream" [] {| chan_id := 0; chan_cap := 1 |}).
Proof.
  apply (Sub_returns_on_ready live_session "stream" [] msg_ready_s1 "s1" 2%nat);
    vm_compute; reflexivity.
Defined.

Lemma Call_returns_on_result_sample :
  (exists s', Call_sync "echo" [JString "x"] [FromInbox msg_result_x] live_session
                = Ok (Some (JString "x", None)) s'
     /\ calls (client s') = delete "s1" (calls (client live_session)))
  /\ (exists s', Call_sync "echo" [JString "x"] [FromInbox msg_result_boom] live_session
                = Ok (Some (JNull, Some (Errorf "boom"))) s'
     /\ calls (client s') = delete "s1" (calls (client live_session))).
Proof.
  split.
  - destruct (Call_returns_on_result live_session "echo" [JString "x"]
                msg_result_x "s1" 2%nat) as [Hok _]; try (vm_compute; reflexivity).
    apply Hok. vm_compute. reflexivity.
  - destruct (Call_returns_on_result live_session "echo" [JString "x"]
                msg_result_boom "s1" 2%nat) as [_ Herr]; try (vm_compute; reflexivity).
    apply Herr. vm_compute. reflexivity.
Defined.

Lemma delta_to_registered_collection_sample :
  dispatch msg_added_c busy_session =
    Ok tt {| client := client busy_session;
             runtime := set_trace
               (trace (runtime busy_session)
                  ++ [EvCollection (NewCollection "c") Added msg_added_c])
               (runtime busy_session) |}.
Proof.
  apply (delta_to_registered_collection busy_session msg_added_c "added" Added "c").
  - vm_compute. reflexivity.
  - repeat constructor.
  - vm_compute. reflexivity.
  - vm_compute. reflexivity.
Defined.

Lemma heartbeat_expiry_sample :
  exists s', Fire O live_session = Ok tt s'
    /\ trace (runtime s') =
         trace (runtime live_session) ++ [EvSend 1%nat (NewPing "s1") None]
    /\ pings (client s') !! "s1"
         = Some [{| handler := PingHandler; timeout := 15 * Second; timer := 1 |}]
    /\ timers (runtime s') !! O
         = Some {| armed := true; duration := 45 * Second; func := HeartbeatFunc |}.
Proof.
  destruct (heartbeat_expiry live_session O (45 * Second)) as [_ Hlive].
  - vm_compute. reflexivity.
  - destruct (Hlive 1%nat O "s1" 2%nat) as (s' & Hrun & Htr & Hp & Ht);
      try (vm_compute; reflexivity).
    exists s'. split; [done|]. split; [done|]. split.
    + rewrite Hp. vm_compute. reflexivity.
    + rewrite Ht. vm_compute. reflexivity.
Defined.

Lemma Reconnect_is_counted_sample :
  reconnects (client resumed_session)
    = int64_wrap (reconnects (client busy_session) + 1)
  /\ session (client resumed_session) = session (client busy_session)
  /\ calls (client resumed_session) = calls (client busy_session)
  /\ subs (client resumed_session) = subs (client busy_session)
  /\ pings (client resumed_session) = pings (client busy_session)
  /\ collections (client resumed_session) = collections (client busy_session)
  /\ pingTimer (client resumed_session) = pingTimer (client busy_session)
  /\ ResetStats resumed_session =
       Ok tt {| client := set_reconnects 0 (client resumed_session);
                runtime := runtime resumed_session |}.
Proof.
  apply (Reconnect_is_counted busy_session resumed_session).
  vm_compute. reflexivity.
Defined.

Lemma offline_call_sample :
  trace (runtime offline_session) = trace (runtime closed_session)
  /\ calls (client offline_session) !! ID echo_call = Some echo_call
  /\ exists evs r,
       trace (runtime back_online_session) = trace (runtime offline_session) ++ evs
       /\ EvSend 2%nat (NewMethod (ID echo_call) "echo" [JString "x"]) r ∈ evs.
Proof.
  apply (offline_call_is_sent_on_reconnect closed_session "echo" [JString "x"]
           echo_call offline_session back_online_session 2%nat);
    vm_compute; reflexivity.
Defined.

Lemma inboxWorker_exit_sample :
  exists s',
    inboxWorker ((decoded <$> [Some msg_updated; None; Some msg_ping_7])
                   ++ FrameEOF :: [FrameObject msg_updated]) live_session =
      Ok ((FromInbox <$> omap id [Some msg_updated; None; Some msg_ping_7]) ++ []) s'
    /\ client s' = set_ws None (client live_session)
    /\ trace (runtime s') =
         trace (runtime live_session)
           ++ match ws (client live_session) with
              | Some conn => [EvWsClose conn]
              | None => []
              end
    /\ timers (runtime s') !! next_timer (runtime live_session)
         = Some {| armed := true; duration := ReconnectInterval (client live_session);
                   func := ReconnectFunc |}
    /\ next_timer (runtime s') = S (next_timer (runtime live_session)).
Proof.
  apply (inboxWorker_exit [Some msg_updated; None; Some msg_ping_7] FrameEOF []
           [FrameObject msg_updated] live_session O (WireError 0)).
  - repeat constructor.
  - vm_compute. reflexivity.
Defined.

End Scenarios.

Section FlakyScenarios.
#[local] Existing Instance flaky_env.

Lemma Reconnect_dial_failure_sample :
  timers (runtime retrying_session) !! next_timer (runtime stranded_session)
    = Some {| armed := true; duration := ReconnectInterval (client stranded_session);
              func := ReconnectFunc |}
  /\ next_timer (runtime retrying_session) = S (next_timer (runtime stranded_session))
  /\ trace (runtime retrying_session) =
       trace (runtime stranded_session)
         ++ match ws (client stranded_session) with
            | Some old => [EvWsClose old]
            | None => []
            end
  /\ Fire (next_timer (runtime stranded_session)) retrying_session =
       Reconnect
         {| client := client retrying_session;
            runtime := set_timers
              (<[next_timer (runtime stranded_session) :=
                   {| armed := false;
                      duration := ReconnectInterval (client stranded_session);
                      func := ReconnectFunc |}]> (timers (runtime retrying_session)))
              (runtime retrying_session) |}.
Proof.
  apply (Reconnect_dial_failure stranded_session retrying_session);
    vm_compute; reflexivity.
Defined.

End FlakyScenarios.
